(** * Car Audio Events MCP server

    A shallow embedding of [mcp-server/main.py] (the FastAPI endpoint layer),
    [mcp-server/services/supabase_service.py] (the data-access shim) and
    [mcp-use-agents/agents/car_audio_agent.py] (the agent wrapper), with the
    properties of the specification proved, or refuted, on it, and further
    properties read off the code.

    Python dictionaries are [gmap string value]; handlers and shim methods
    live in a small state-and-exception monad over a [world] holding the
    process environment, the wall clock and the log. *)

From Stdlib Require Import ZArith Lia.
From Corelib Require Import SpecFloat.
From stdpp Require Import gmap strings list pretty.

Set Warnings "-register-all".
Local Open Scope Z_scope.
Local Open Scope string_scope.

(** ** Python values *)

(** A Python [float] is an IEEE 754 double: zero, finite, infinite or not a
    number. *)
Definition float : Type := spec_float.

(** The double nearest to an integer, an infinity when the integer is past
    the range of doubles. *)
Definition binary64 (n : Z) : float := binary_normalize 53 1024 n 0 false.

(** [x + y] on floats. *)
Definition float_add (x y : float) : float := SFadd 53 1024 x y.

Definition is_finite (x : float) : bool :=
  match x with
  | S754_infinity _ | S754_nan => false
  | _ => true
  end.

(** The JSON-like values the files pass around.  A [str] is carried as the
    bytes of its UTF-8 encoding. *)
Inductive value : Type :=
  | VNone
  | VBool (b : bool)
  | VInt (n : Z)
  | VFloat (x : float)
  | VStr (s : string)
  | VList (l : list value)
  | VDict (d : gmap string value).

Abbreviation record := (gmap string value).

(** One item of a dict display [{k: v, **d, ...}]. *)
Inductive item : Type :=
  | KV (k : string) (v : value)
  | Unpack (d : record).

(** A dict display is evaluated left to right and a later key replaces an
    earlier one. *)
Definition dict_display (items : list item) : record :=
  fold_left (fun m it => match it with
                         | KV k v => <[k := v]> m
                         | Unpack d => d ∪ m
                         end) items ∅.

(** Truthiness of an [Optional[str]]: [None] and the empty string are
    falsy. *)
Definition truthy (o : option string) : bool :=
  match o with
  | Some s => negb (String.eqb s EmptyString)
  | None => false
  end.

(** The string an [Optional[str]] holds, once it has been tested truthy. *)
Definition unwrap (o : option string) : string := default EmptyString o.

(** [v == s] for a string [s]. *)
Definition eq_str (v : value) (s : string) : bool :=
  match v with
  | VStr s' => String.eqb s' s
  | _ => false
  end.

(** [s.lower()], on the ASCII letters. *)
Definition ascii_lower (c : Ascii.ascii) : Ascii.ascii :=
  let n := Ascii.nat_of_ascii c in
  if (65 <=? n)%nat && (n <=? 90)%nat then Ascii.ascii_of_nat (n + 32) else c.

Fixpoint lower (s : string) : string :=
  match s with
  | EmptyString => EmptyString
  | String c s' => String (ascii_lower c) (lower s')
  end.

(** Whether a value can be written as JSON: an infinite or not-a-number
    float, at any depth, cannot. *)
Fixpoint json_compliant (v : value) : bool :=
  match v with
  | VFloat x => is_finite x
  | VList l => forallb json_compliant l
  | VDict d => map_fold (fun _ v' rest => json_compliant v' && rest) true d
  | _ => true
  end.

(** [k in l] for a list of strings. *)
Definition contains (l : list string) (k : string) : bool :=
  existsb (String.eqb k) l.

(** The slice [l[:stop]]: a negative [stop] counts from the end, and both
    ends are clipped to the list. *)
Definition slice_to {A} (stop : Z) (l : list A) : list A :=
  if (0 <=? stop)%Z then take (Z.to_nat stop) l
  else take (Z.to_nat (Z.of_nat (length l) + stop)) l.

(** ** Exceptions *)

Inductive exception : Type :=
  | HTTPException (status_code : Z) (detail : string)
                  (headers : list (string * string))
  | Exception_ (msg : string).

(** [str(e)]: an [HTTPException] prints as ["<status>: <detail>"], any other
    exception as its message. *)
Definition str (e : exception) : string :=
  match e with
  | HTTPException sc detail _ => pretty sc ++ ": " ++ detail
  | Exception_ msg => msg
  end.

Definition KeyError (k : string) : exception := Exception_ ("'" ++ k ++ "'").
Definition TypeError (msg : string) : exception := Exception_ msg.
Definition AttributeError (msg : string) : exception := Exception_ msg.
Definition OverflowError (msg : string) : exception := Exception_ msg.

Inductive result (A : Type) : Type :=
  | Raised (e : exception)
  | Returned (a : A).
Arguments Raised {A} e.
Arguments Returned {A} a.

(** ** The world: environment, clock and log *)

(** A reading of [datetime.now()], given by the three renderings the code
    takes of it: [f"{d.timestamp()}"], [d.isoformat()] and
    [d.strftime("%Y-%m-%d")]. *)
Record datetime : Type := {
  timestamp_str : string;
  isoformat : string;
  strftime_Ymd : string
}.

Inductive level : Type := INFO | WARNING | ERROR.

(** [clock] lists the readings the wall clock will give, [ticks] counts the
    readings taken so far.  A log message is kept as the pieces of its
    f-string. *)
Record world : Type := {
  environ : gmap string string;
  clock : nat -> datetime;
  ticks : nat;
  log : list (level * list value)
}.

Definition M (A : Type) : Type := world -> result A * world.

Definition ret {A} (a : A) : M A := fun w => (Returned a, w).

Definition bind {A B} (m : M A) (f : A -> M B) : M B :=
  fun w => match m w with
           | (Returned a, w') => f a w'
           | (Raised e, w') => (Raised e, w')
           end.

Definition raise {A} (e : exception) : M A := fun w => (Raised e, w).

(** [try: body  except Exception as e: handler e]. *)
Definition try_except {A} (body : M A) (handler : exception -> M A) : M A :=
  fun w => match body w with
           | (Raised e, w') => handler e w'
           | r => r
           end.

(** A computation that touches neither clock nor log. *)
Definition lift {A} (r : result A) : M A := fun w => (r, w).

Declare Scope py_scope.
Delimit Scope py_scope with py.
Notation "x <- c1 ;; c2" := (bind c1 (fun x => c2))
  (at level 100, c1 at next level, right associativity) : py_scope.
Notation "c1 ;;; c2" := (bind c1 (fun _ => c2))
  (at level 100, right associativity) : py_scope.
Local Open Scope py_scope.

Definition datetime_now : M datetime :=
  fun w => (Returned (clock w (ticks w)),
            {| environ := environ w; clock := clock w;
               ticks := S (ticks w); log := log w |}).

Definition emit (lv : level) (msg : list value) : M unit :=
  fun w => (Returned tt,
            {| environ := environ w; clock := clock w;
               ticks := ticks w; log := log w ++ [(lv, msg)] |}).

Definition logger_info := emit INFO.
Definition logger_warning := emit WARNING.
Definition logger_error := emit ERROR.

(** [os.getenv(k)] and [os.getenv(k, default)]. *)
Definition getenv (k : string) : M (option string) :=
  fun w => (Returned (environ w !! k), w).

Definition getenv_default (k dflt : string) : M string :=
  fun w => (Returned (default dflt (environ w !! k)), w).

(** [d[k]]. *)
Definition getitem (d : record) (k : string) : result value :=
  match d !! k with
  | Some v => Returned v
  | None => Raised (KeyError k)
  end.

(** The comprehension [[e for e in l if e[k] == s]]. *)
Fixpoint select_eq (k s : string) (l : list record) : result (list record) :=
  match l with
  | [] => Returned []
  | e :: l' =>
      match getitem e k with
      | Raised x => Raised x
      | Returned v =>
          match select_eq k s l' with
          | Raised x => Raised x
          | Returned r => Returned (if eq_str v s then e :: r else r)
          end
      end
  end.

(** ** main.py: request models *)

Module EventCreate.
Record t : Type := {
  name : string;
  event_type : string;
  start_date : string;
  end_date : string;
  location : string;
  venue_name : string;
  max_competitors : Z;
  early_bird_price : float;
  regular_price : float;
  description : option string
}.
End EventCreate.

Module CompetitorRegistration.
Record t : Type := {
  event_id : string;
  competitor_name : string;
  email : string;
  phone : string;
  vehicle_info : record;
  class_id : string;
  team_name : option string
}.
End CompetitorRegistration.

Module EventAnalytics.
Record t : Type := {
  event_id : option string;
  start_date : option string;
  end_date : option string;
  metrics : list string
}.
End EventAnalytics.

Module PaymentProcess.
Record t : Type := {
  registration_id : string;
  amount : float;
  currency : string;
  payment_method : string;
  metadata : option record
}.
End PaymentProcess.

Module SupportTicket.
Record t : Type := {
  subject : string;
  description : string;
  priority : string;
  category : string;
  user_email : string;
  attachments : option (list string)
}.
End SupportTicket.

(** The credentials of an [Authorization: Bearer <token>] header. *)
Record HTTPAuthorizationCredentials : Type := {
  scheme : string;
  credentials : string
}.

(** ** main.py: security and endpoints *)

Module Main.

(** Modelled from the spec: [HTTPBearer] is FastAPI's, not this
    repository's.  Per the spec an authenticated route requires the header
    [Authorization: Bearer <token>], and a request without a bearer token is
    answered 401 with a [WWW-Authenticate: Bearer] challenge: so is a
    request with no header, with a header that lacks the scheme or the
    token, or with a scheme other than bearer (in any case of letters); a
    bearer token is handed on. *)
Definition security (authorization : option HTTPAuthorizationCredentials)
  : M HTTPAuthorizationCredentials :=
  match authorization with
  | None => raise (HTTPException 401 "Not authenticated"
                     [("WWW-Authenticate", "Bearer")])
  | Some c =>
      if String.eqb (scheme c) EmptyString
         || String.eqb (credentials c) EmptyString then
        raise (HTTPException 401 "Not authenticated"
                 [("WWW-Authenticate", "Bearer")])
      else if negb (String.eqb (lower (scheme c)) "bearer") then
        raise (HTTPException 401 "Invalid authentication credentials"
                 [("WWW-Authenticate", "Bearer")])
      else ret c
  end.

Definition verify_token (creds : HTTPAuthorizationCredentials) : M bool :=
  let token := credentials creds in
  expected_token <- getenv_default "MCP_API_TOKEN" "car-audio-events-mcp-token" ;;
  if negb (String.eqb token expected_token) then
    raise (HTTPException 401 "Invalid authentication credentials"
             [("WWW-Authenticate", "Bearer")])
  else ret true.

Definition root : M record :=
  now <- datetime_now ;;
  ret (dict_display [
    KV "message" (VStr "Car Audio Events MCP Server");
    KV "status" (VStr "operational");
    KV "timestamp" (VStr (isoformat now));
    KV "endpoints" (VDict (dict_display [
      KV "events" (VStr "/api/events");
      KV "registrations" (VStr "/api/registrations");
      KV "analytics" (VStr "/api/analytics");
      KV "payments" (VStr "/api/payments");
      KV "support" (VStr "/api/support")]))]).

Definition health_check : M record :=
  now <- datetime_now ;;
  ret (dict_display [
    KV "status" (VStr "healthy");
    KV "timestamp" (VStr (isoformat now));
    KV "service" (VStr "Car Audio Events MCP Server")]).

(** The [except Exception as e] clause every endpoint ends with: log, then
    answer 500 with the stringified exception. *)
Definition surface_500 {A} (doing : string) (e : exception) : M A :=
  logger_error [VStr ("Error " ++ doing ++ ": "); VStr (str e)] ;;;
  raise (HTTPException 500 (str e) []).

Definition create_event (event : EventCreate.t) (authenticated : bool)
  : M record :=
  try_except
    (logger_info [VStr "Creating event: "; VStr (EventCreate.name event)] ;;;
     now_id <- datetime_now ;;
     now_created <- datetime_now ;;
     let created_event := dict_display [
       KV "id" (VStr ("evt_" ++ timestamp_str now_id));
       KV "name" (VStr (EventCreate.name event));
       KV "type" (VStr (EventCreate.event_type event));
       KV "start_date" (VStr (EventCreate.start_date event));
       KV "end_date" (VStr (EventCreate.end_date event));
       KV "location" (VStr (EventCreate.location event));
       KV "venue" (VStr (EventCreate.venue_name event));
       KV "status" (VStr "draft");
       KV "created_at" (VStr (isoformat now_created))] in
     ret (dict_display [
       KV "success" (VBool true);
       KV "message" (VStr ("Event '" ++ EventCreate.name event
                             ++ "' created successfully"));
       KV "event" (VDict created_event)]))
    (surface_500 "creating event").

(** The two sample events [list_events] serves. *)
Definition sample_events : list record := [
  dict_display [
    KV "id" (VStr "evt_001");
    KV "name" (VStr "Summer Bass Championship 2025");
    KV "type" (VStr "SPL");
    KV "start_date" (VStr "2025-06-15");
    KV "location" (VStr "Miami, FL");
    KV "status" (VStr "published");
    KV "registrations" (VInt 45)];
  dict_display [
    KV "id" (VStr "evt_002");
    KV "name" (VStr "SQ Masters Series");
    KV "type" (VStr "SQ");
    KV "start_date" (VStr "2025-07-20");
    KV "location" (VStr "Atlanta, GA");
    KV "status" (VStr "published");
    KV "registrations" (VInt 32)]].

Definition list_events (status event_type : option string) (limit : Z)
  : M record :=
  try_except
    (let events := sample_events in
     events <- (if truthy status
                then lift (select_eq "status" (unwrap status) events)
                else ret events) ;;
     events <- (if truthy event_type
                then lift (select_eq "type" (unwrap event_type) events)
                else ret events) ;;
     ret (dict_display [
       KV "success" (VBool true);
       KV "count" (VInt (Z.of_nat (length events)));
       KV "events" (VList (VDict <$> slice_to limit events))]))
    (surface_500 "listing events").

Definition register_competitor (registration : CompetitorRegistration.t)
    (authenticated : bool) : M record :=
  try_except
    (logger_info [VStr "Registering ";
                  VStr (CompetitorRegistration.competitor_name registration);
                  VStr " for event ";
                  VStr (CompetitorRegistration.event_id registration)] ;;;
     now_id <- datetime_now ;;
     now_created <- datetime_now ;;
     let created_registration := dict_display [
       KV "id" (VStr ("reg_" ++ timestamp_str now_id));
       KV "event_id" (VStr (CompetitorRegistration.event_id registration));
       KV "competitor" (VStr (CompetitorRegistration.competitor_name registration));
       KV "email" (VStr (CompetitorRegistration.email registration));
       KV "class" (VStr (CompetitorRegistration.class_id registration));
       KV "status" (VStr "pending_payment");
       KV "created_at" (VStr (isoformat now_created))] in
     ret (dict_display [
       KV "success" (VBool true);
       KV "message" (VStr "Registration created successfully");
       KV "registration" (VDict created_registration)]))
    (surface_500 "creating registration").

(** [d[k1][k2] = v] on a dict of dicts. *)
Definition setitem_in (d : record) (k1 k2 : string) (v : value) : record :=
  alter (fun inner => match inner with
                      | VDict m => VDict (<[k2 := v]> m)
                      | other => other
                      end) k1 d.

Definition get_analytics (request : EventAnalytics.t) (authenticated : bool)
  : M record :=
  try_except
    (logger_info [VStr "Fetching analytics for metrics: ";
                  VList (VStr <$> EventAnalytics.metrics request)] ;;;
     period_end <- (if truthy (EventAnalytics.end_date request)
                    then ret (unwrap (EventAnalytics.end_date request))
                    else now <- datetime_now ;; ret (strftime_Ymd now)) ;;
     let analytics_data := dict_display [
       KV "period" (VDict (dict_display [
         KV "start" (VStr (if truthy (EventAnalytics.start_date request)
                           then unwrap (EventAnalytics.start_date request)
                           else "2025-01-01"));
         KV "end" (VStr period_end)]));
       KV "metrics" (VDict ∅)] in
     let analytics_data :=
       if contains (EventAnalytics.metrics request) "registrations" then
         setitem_in analytics_data "metrics" "registrations"
           (VDict (dict_display [
              KV "total" (VInt 156);
              KV "growth" (VStr "+12%");
              KV "by_class" (VDict (dict_display [
                KV "SPL" (VInt 89); KV "SQ" (VInt 45); KV "Show" (VInt 22)]))]))
       else analytics_data in
     let analytics_data :=
       if contains (EventAnalytics.metrics request) "revenue" then
         setitem_in analytics_data "metrics" "revenue"
           (VDict (dict_display [
              KV "total" (VFloat (binary64 15600));
              KV "average_per_event" (VFloat (binary64 3120));
              KV "by_payment_method" (VDict (dict_display [
                KV "stripe" (VFloat (binary64 12000));
                KV "paypal" (VFloat (binary64 3600))]))]))
       else analytics_data in
     let analytics_data :=
       if contains (EventAnalytics.metrics request) "attendance" then
         setitem_in analytics_data "metrics" "attendance"
           (VDict (dict_display [
              KV "total_attendees" (VInt 450);
              KV "average_per_event" (VInt 90);
              KV "retention_rate" (VStr "78%")]))
       else analytics_data in
     ret (dict_display [
       KV "success" (VBool true);
       KV "analytics" (VDict analytics_data)]))
    (surface_500 "fetching analytics").

Definition process_payment (payment : PaymentProcess.t) (authenticated : bool)
  : M record :=
  try_except
    (logger_info [VStr "Processing payment of ";
                  VFloat (PaymentProcess.amount payment); VStr " ";
                  VStr (PaymentProcess.currency payment); VStr " via ";
                  VStr (PaymentProcess.payment_method payment)] ;;;
     now_id <- datetime_now ;;
     now_processed <- datetime_now ;;
     let payment_result := dict_display [
       KV "id" (VStr ("pay_" ++ timestamp_str now_id));
       KV "registration_id" (VStr (PaymentProcess.registration_id payment));
       KV "amount" (VFloat (PaymentProcess.amount payment));
       KV "currency" (VStr (PaymentProcess.currency payment));
       KV "status" (VStr "succeeded");
       KV "payment_method" (VStr (PaymentProcess.payment_method payment));
       KV "processed_at" (VStr (isoformat now_processed))] in
     ret (dict_display [
       KV "success" (VBool true);
       KV "message" (VStr "Payment processed successfully");
       KV "payment" (VDict payment_result)]))
    (surface_500 "processing payment").

Definition create_support_ticket (ticket : SupportTicket.t)
    (authenticated : bool) : M record :=
  try_except
    (logger_info [VStr "Creating support ticket: ";
                  VStr (SupportTicket.subject ticket)] ;;;
     now_id <- datetime_now ;;
     now_created <- datetime_now ;;
     let created_ticket := dict_display [
       KV "id" (VStr ("tkt_" ++ timestamp_str now_id));
       KV "subject" (VStr (SupportTicket.subject ticket));
       KV "description" (VStr (SupportTicket.description ticket));
       KV "priority" (VStr (SupportTicket.priority ticket));
       KV "category" (VStr (SupportTicket.category ticket));
       KV "status" (VStr "open");
       KV "created_by" (VStr (SupportTicket.user_email ticket));
       KV "created_at" (VStr (isoformat now_created))] in
     ret (dict_display [
       KV "success" (VBool true);
       KV "message" (VStr "Support ticket created successfully");
       KV "ticket" (VDict created_ticket)]))
    (surface_500 "creating support ticket").

End Main.

(** ** main.py served over HTTP *)

Record response : Type := {
  status : Z;
  headers : list (string * string);
  body : value
}.

Inductive request : Type :=
  | GET_root
  | GET_health
  | POST_api_events (authorization : option HTTPAuthorizationCredentials)
                    (event : EventCreate.t)
  | GET_api_events (status event_type : option string) (limit : Z)
  | POST_api_registrations (authorization : option HTTPAuthorizationCredentials)
                           (registration : CompetitorRegistration.t)
  | POST_api_analytics (authorization : option HTTPAuthorizationCredentials)
                       (request : EventAnalytics.t)
  | POST_api_payments (authorization : option HTTPAuthorizationCredentials)
                      (payment : PaymentProcess.t)
  | POST_api_support (authorization : option HTTPAuthorizationCredentials)
                     (ticket : SupportTicket.t).

(** [Depends(verify_token)]: the dependency runs, and must return, before
    the endpoint body is called. *)
Definition Depends_verify_token
    (authorization : option HTTPAuthorizationCredentials) : M bool :=
  creds <- Main.security authorization ;;
  Main.verify_token creds.

Definition dispatch (req : request) : M record :=
  match req with
  | GET_root => Main.root
  | GET_health => Main.health_check
  | POST_api_events authorization event =>
      authenticated <- Depends_verify_token authorization ;;
      Main.create_event event authenticated
  | GET_api_events status event_type limit =>
      Main.list_events status event_type limit
  | POST_api_registrations authorization registration =>
      authenticated <- Depends_verify_token authorization ;;
      Main.register_competitor registration authenticated
  | POST_api_analytics authorization request =>
      authenticated <- Depends_verify_token authorization ;;
      Main.get_analytics request authenticated
  | POST_api_payments authorization payment =>
      authenticated <- Depends_verify_token authorization ;;
      Main.process_payment payment authenticated
  | POST_api_support authorization ticket =>
      authenticated <- Depends_verify_token authorization ;;
      Main.create_support_ticket ticket authenticated
  end.

(** FastAPI's rendering of the outcome of an endpoint (the framework is not
    part of the repository): the returned dict as a 200 when it can be
    written as JSON, an [HTTPException] as its status, headers and
    [{"detail": ...}], and a bare 500 for any other exception and for a
    returned dict that cannot be written as JSON. *)
Definition respond (r : result record) : response :=
  match r with
  | Returned b =>
      if json_compliant (VDict b)
      then {| status := 200; headers := []; body := VDict b |}
      else {| status := 500; headers := []; body := VStr "Internal Server Error" |}
  | Raised (HTTPException sc detail hs) =>
      {| status := sc; headers := hs;
         body := VDict (dict_display [KV "detail" (VStr detail)]) |}
  | Raised (Exception_ _) =>
      {| status := 500; headers := []; body := VStr "Internal Server Error" |}
  end.

Definition app (req : request) (w : world) : response * world :=
  let (r, w') := dispatch req w in (respond r, w').

(** Routes declared with [Depends(verify_token)], and the token they carry. *)
Definition authorization_of (req : request)
  : option (option HTTPAuthorizationCredentials) :=
  match req with
  | POST_api_events a _ | POST_api_registrations a _ | POST_api_analytics a _
  | POST_api_payments a _ | POST_api_support a _ => Some a
  | GET_root | GET_health | GET_api_events _ _ _ => None
  end.

(** ** services/supabase_service.py: the remote client *)

Inductive action : Type :=
  | Select (columns : string) (count : option string)
  | Insert (row : record).

Inductive comparison_op : Type := Eq_ | Gte | Lte.

(** A request built with [client.table(t).select(..).eq(..).limit(..)]. *)
Record query : Type := {
  q_table : string;
  q_action : action;
  q_filters : list (comparison_op * string * value);
  q_limit : option Z
}.

(** What [execute()] returns; [count] is [None] when the response has no such
    attribute. *)
Record APIResponse : Type := {
  data : list record;
  count : option value
}.

(** The remote store, seen through [execute()]: each request is answered or
    raises. *)
Record Client : Type := {
  execute : query -> result APIResponse
}.

Definition table_select (t columns : string) (cnt : option string) : query :=
  {| q_table := t; q_action := Select columns cnt; q_filters := []; q_limit := None |}.

Definition table_insert (t : string) (row : record) : query :=
  {| q_table := t; q_action := Insert row; q_filters := []; q_limit := None |}.

Definition where_ (op : comparison_op) (column : string) (v : value) (q : query)
  : query :=
  {| q_table := q_table q; q_action := q_action q;
     q_filters := q_filters q ++ [(op, column, v)]; q_limit := q_limit q |}.

Definition limit_ (n : Z) (q : query) : query :=
  {| q_table := q_table q; q_action := q_action q;
     q_filters := q_filters q; q_limit := Some n |}.

(** [if x: query = query.op(column, x)]. *)
Definition where_if (op : comparison_op) (column : string) (x : option string)
    (q : query) : query :=
  if truthy x then where_ op column (VStr (unwrap x)) q else q.

(** [type(v).__name__]. *)
Definition type_name (v : value) : string :=
  match v with
  | VNone => "NoneType"
  | VBool _ => "bool"
  | VInt _ => "int"
  | VFloat _ => "float"
  | VStr _ => "str"
  | VList _ => "list"
  | VDict _ => "dict"
  end.

(** [float(n)] for an [int]: the nearest double, and an error when there is
    none in range. *)
Definition float_of_int (n : Z) : result float :=
  if is_finite (binary64 n) then Returned (binary64 n)
  else Raised (OverflowError "int too large to convert to float").

(** [acc + v] for a numeric accumulator: a [bool] counts as an [int]; with a
    [float] on either side the [int] is converted and the floats are
    added. *)
Definition add_number (acc v : value) : result value :=
  match acc, v with
  | VInt a, VInt b => Returned (VInt (a + b))
  | VInt a, VBool b => Returned (VInt (a + Z.b2z b))
  | VInt a, VFloat y =>
      match float_of_int a with
      | Returned x => Returned (VFloat (float_add x y))
      | Raised e => Raised e
      end
  | VFloat x, VInt b =>
      match float_of_int b with
      | Returned y => Returned (VFloat (float_add x y))
      | Raised e => Raised e
      end
  | VFloat x, VBool b => Returned (VFloat (float_add x (binary64 (Z.b2z b))))
  | VFloat x, VFloat y => Returned (VFloat (float_add x y))
  | _, _ => Raised (TypeError ("unsupported operand type(s) for +: '" ++ type_name acc
                                ++ "' and '" ++ type_name v ++ "'"))
  end.

(** [sum(p[k] for p in rows)]: the items are added from the left, starting
    from the [int] 0.  (From CPython 3.12 on, [sum] compensates the rounding
    of floats; the last digits of a total of three or more floats can then
    differ from the ones computed here.) *)
Definition sum_of (k : string) (rows : list record) : result value :=
  fold_left (fun acc p =>
               match acc with
               | Raised e => Raised e
               | Returned a =>
                   match getitem p k with
                   | Raised e => Raised e
                   | Returned v => add_number a v
                   end
               end) rows (Returned (VInt 0)).

(** ** services/supabase_service.py: the service *)

Module SupabaseService.

(** [client] is [None] in mock mode. *)
Record t : Type := { client : option Client }.

(** [create_client] is the library's; it can raise, and nothing here
    catches it. *)
Definition __init__ (create_client : string -> string -> result Client) : M t :=
  supabase_url <- getenv "VITE_SUPABASE_URL" ;;
  supabase_key <- getenv "SUPABASE_SERVICE_ROLE_KEY" ;;
  if negb (truthy supabase_url) || negb (truthy supabase_key) then
    logger_warning [VStr "Supabase credentials not found. Running in mock mode."] ;;;
    ret {| client := None |}
  else
    c <- lift (create_client (unwrap supabase_url) (unwrap supabase_key)) ;;
    logger_info [VStr "Supabase client initialized successfully"] ;;;
    ret {| client := Some c |}.

(** [self.client.table(..)...execute()]; on a missing client the attribute
    access raises. *)
Definition run (self : t) (q : query) : M APIResponse :=
  match client self with
  | Some c => lift (execute c q)
  | None => raise (AttributeError "'NoneType' object has no attribute 'table'")
  end.

(** [except Exception as e: logger.error(...); raise]. *)
Definition log_and_reraise {A} (doing : string) (e : exception) : M A :=
  logger_error [VStr ("Error " ++ doing ++ ": "); VStr (str e)] ;;;
  raise e.

(** *** Mock responses *)

Definition _mock_event_response (event_data : record) : M record :=
  now_id <- datetime_now ;;
  now_created <- datetime_now ;;
  now_updated <- datetime_now ;;
  ret (dict_display [
    KV "id" (VStr ("evt_mock_" ++ timestamp_str now_id));
    Unpack event_data;
    KV "created_at" (VStr (isoformat now_created));
    KV "updated_at" (VStr (isoformat now_updated))]).

Definition _mock_events_list : list record := [
  dict_display [
    KV "id" (VStr "evt_001");
    KV "name" (VStr "Mock Bass Championship");
    KV "event_type" (VStr "SPL");
    KV "start_date" (VStr "2025-06-15");
    KV "location" (VStr "Miami, FL");
    KV "status" (VStr "published")];
  dict_display [
    KV "id" (VStr "evt_002");
    KV "name" (VStr "Mock SQ Masters");
    KV "event_type" (VStr "SQ");
    KV "start_date" (VStr "2025-07-20");
    KV "location" (VStr "Atlanta, GA");
    KV "status" (VStr "published")]].

Definition _mock_event_by_id (event_id : string) : record :=
  dict_display [
    KV "id" (VStr event_id);
    KV "name" (VStr "Mock Event");
    KV "event_type" (VStr "SPL");
    KV "start_date" (VStr "2025-06-15");
    KV "location" (VStr "Mock City, ST");
    KV "status" (VStr "published")].

Definition _mock_registration_response (registration_data : record)
  : M record :=
  now_id <- datetime_now ;;
  now_created <- datetime_now ;;
  ret (dict_display [
    KV "id" (VStr ("reg_mock_" ++ timestamp_str now_id));
    Unpack registration_data;
    KV "status" (VStr "pending_payment");
    KV "created_at" (VStr (isoformat now_created))]).

Definition _mock_registrations_list : list record := [
  dict_display [
    KV "id" (VStr "reg_001");
    KV "event_id" (VStr "evt_001");
    KV "competitor_name" (VStr "John Doe");
    KV "status" (VStr "confirmed")]].

Definition _mock_analytics_data : record :=
  dict_display [
    KV "registrations" (VDict (dict_display [
      KV "total" (VInt 156); KV "data" (VList [])]));
    KV "revenue" (VDict (dict_display [
      KV "total" (VFloat (binary64 15600)); KV "transaction_count" (VInt 156);
      KV "data" (VList [])]));
    KV "attendance" (VDict (dict_display [
      KV "total_checked_in" (VInt 145); KV "data" (VList [])]))].

Definition _mock_payment_response (payment_data : record) : M record :=
  now_id <- datetime_now ;;
  now_processed <- datetime_now ;;
  ret (dict_display [
    KV "id" (VStr ("pay_mock_" ++ timestamp_str now_id));
    Unpack payment_data;
    KV "status" (VStr "succeeded");
    KV "processed_at" (VStr (isoformat now_processed))]).

Definition _mock_ticket_response (ticket_data : record) : M record :=
  now_id <- datetime_now ;;
  now_created <- datetime_now ;;
  ret (dict_display [
    KV "id" (VStr ("tkt_mock_" ++ timestamp_str now_id));
    Unpack ticket_data;
    KV "status" (VStr "open");
    KV "created_at" (VStr (isoformat now_created))]).

(** *** Event operations *)

Definition create_event (self : t) (event_data : record) : M (option record) :=
  match client self with
  | None => r <- _mock_event_response event_data ;; ret (Some r)
  | Some _ =>
      try_except
        (response <- run self (table_insert "events" event_data) ;;
         ret (head (data response)))
        (log_and_reraise "creating event")
  end.

Definition get_events (self : t) (status event_type : option string)
    (limit : Z) : M (list record) :=
  match client self with
  | None => ret _mock_events_list
  | Some _ =>
      try_except
        (let query := table_select "events" "*" None in
         let query := where_if Eq_ "status" status query in
         let query := where_if Eq_ "event_type" event_type query in
         let query := limit_ limit query in
         response <- run self query ;;
         ret (data response))
        (log_and_reraise "fetching events")
  end.

Definition get_event_by_id (self : t) (event_id : string)
  : M (option record) :=
  match client self with
  | None => ret (Some (_mock_event_by_id event_id))
  | Some _ =>
      try_except
        (response <- run self (where_ Eq_ "id" (VStr event_id)
                                 (table_select "events" "*" None)) ;;
         ret (head (data response)))
        (log_and_reraise ("fetching event " ++ event_id))
  end.

(** *** Registration operations *)

Definition create_registration (self : t) (registration_data : record)
  : M (option record) :=
  match client self with
  | None => r <- _mock_registration_response registration_data ;; ret (Some r)
  | Some _ =>
      try_except
        (response <- run self (table_insert "registrations" registration_data) ;;
         ret (head (data response)))
        (log_and_reraise "creating registration")
  end.

Definition get_registrations (self : t)
    (event_id user_id status : option string) : M (list record) :=
  match client self with
  | None => ret _mock_registrations_list
  | Some _ =>
      try_except
        (let query := table_select "registrations" "*" None in
         let query := where_if Eq_ "event_id" event_id query in
         let query := where_if Eq_ "user_id" user_id query in
         let query := where_if Eq_ "status" status query in
         response <- run self query ;;
         ret (data response))
        (log_and_reraise "fetching registrations")
  end.

(** *** Analytics operations *)

Definition _get_registration_stats (self : t)
    (event_id start_date end_date : option string) : M record :=
  try_except
    (let query := table_select "registrations" "*" (Some "exact") in
     let query := where_if Eq_ "event_id" event_id query in
     let query := where_if Gte "created_at" start_date query in
     let query := where_if Lte "created_at" end_date query in
     response <- run self query ;;
     ret (dict_display [
       KV "total" (match count response with
                   | Some c => c
                   | None => VInt (Z.of_nat (length (data response)))
                   end);
       KV "data" (VList (VDict <$> data response))]))
    (fun e =>
       logger_error [VStr "Error getting registration stats: "; VStr (str e)] ;;;
       ret (dict_display [KV "total" (VInt 0); KV "data" (VList [])])).

Definition _get_revenue_stats (self : t)
    (event_id start_date end_date : option string) : M record :=
  try_except
    (let query := table_select "payments" "amount, status, payment_method" None in
     let query := where_if Eq_ "registration.event_id" event_id query in
     let query := where_if Gte "created_at" start_date query in
     let query := where_if Lte "created_at" end_date query in
     let query := where_ Eq_ "status" (VStr "succeeded") query in
     response <- run self query ;;
     total_revenue <- (match data response with
                       | [] => ret (VInt 0)
                       | rows => lift (sum_of "amount" rows)
                       end) ;;
     ret (dict_display [
       KV "total" total_revenue;
       KV "transaction_count" (VInt (Z.of_nat (length (data response))));
       KV "data" (VList (VDict <$> data response))]))
    (fun e =>
       logger_error [VStr "Error getting revenue stats: "; VStr (str e)] ;;;
       ret (dict_display [KV "total" (VInt 0); KV "transaction_count" (VInt 0);
                          KV "data" (VList [])])).

Definition _get_attendance_stats (self : t)
    (event_id start_date end_date : option string) : M record :=
  try_except
    (let query := table_select "event_check_ins" "*" (Some "exact") in
     let query := where_if Eq_ "event_id" event_id query in
     let query := where_if Gte "checked_in_at" start_date query in
     let query := where_if Lte "checked_in_at" end_date query in
     response <- run self query ;;
     ret (dict_display [
       KV "total_checked_in" (match count response with
                              | Some c => c
                              | None => VInt (Z.of_nat (length (data response)))
                              end);
       KV "data" (VList (VDict <$> data response))]))
    (fun e =>
       logger_error [VStr "Error getting attendance stats: "; VStr (str e)] ;;;
       ret (dict_display [KV "total_checked_in" (VInt 0); KV "data" (VList [])])).

Definition get_event_analytics (self : t)
    (event_id start_date end_date : option string) : M record :=
  match client self with
  | None => ret _mock_analytics_data
  | Some _ =>
      try_except
        (registrations <- _get_registration_stats self event_id start_date end_date ;;
         revenue <- _get_revenue_stats self event_id start_date end_date ;;
         attendance <- _get_attendance_stats self event_id start_date end_date ;;
         let analytics := dict_display [
           KV "registrations" (VDict registrations);
           KV "revenue" (VDict revenue);
           KV "attendance" (VDict attendance)] in
         ret analytics)
        (log_and_reraise "fetching analytics")
  end.

(** *** Payment operations *)

Definition create_payment_record (self : t) (payment_data : record)
  : M (option record) :=
  match client self with
  | None => r <- _mock_payment_response payment_data ;; ret (Some r)
  | Some _ =>
      try_except
        (response <- run self (table_insert "payments" payment_data) ;;
         ret (head (data response)))
        (log_and_reraise "creating payment record")
  end.

(** *** Support operations *)

Definition create_support_ticket (self : t) (ticket_data : record)
  : M (option record) :=
  match client self with
  | None => r <- _mock_ticket_response ticket_data ;; ret (Some r)
  | Some _ =>
      try_except
        (response <- run self (table_insert "support_tickets" ticket_data) ;;
         ret (head (data response)))
        (log_and_reraise "creating support ticket")
  end.

End SupabaseService.

(** ** The create operations, taken together *)

Inductive create_request : Type :=
  | CreateEvent (event : EventCreate.t)
  | CreateRegistration (registration : CompetitorRegistration.t)
  | CreatePayment (payment : PaymentProcess.t)
  | CreateTicket (ticket : SupportTicket.t).

(** The endpoint of main.py serving a create request. *)
Definition handle_create (cr : create_request) (authenticated : bool) : M record :=
  match cr with
  | CreateEvent event => Main.create_event event authenticated
  | CreateRegistration registration =>
      Main.register_competitor registration authenticated
  | CreatePayment payment => Main.process_payment payment authenticated
  | CreateTicket ticket => Main.create_support_ticket ticket authenticated
  end.

Definition create_route (authorization : option HTTPAuthorizationCredentials)
    (cr : create_request) : request :=
  match cr with
  | CreateEvent event => POST_api_events authorization event
  | CreateRegistration registration =>
      POST_api_registrations authorization registration
  | CreatePayment payment => POST_api_payments authorization payment
  | CreateTicket ticket => POST_api_support authorization ticket
  end.

(** The key of the envelope under which the synthesized record is returned,
    the prefix of its identifier and the key of its timestamp. *)
Definition record_key (cr : create_request) : string :=
  match cr with
  | CreateEvent _ => "event"
  | CreateRegistration _ => "registration"
  | CreatePayment _ => "payment"
  | CreateTicket _ => "ticket"
  end.

Definition id_prefix (cr : create_request) : string :=
  match cr with
  | CreateEvent _ => "evt_"
  | CreateRegistration _ => "reg_"
  | CreatePayment _ => "pay_"
  | CreateTicket _ => "tkt_"
  end.

Definition stamp_key (cr : create_request) : string :=
  match cr with
  | CreatePayment _ => "processed_at"
  | _ => "created_at"
  end.

Definition of_option_str (o : option string) : value :=
  match o with Some s => VStr s | None => VNone end.

(** The request body as the caller submitted it, field by field. *)
Definition submitted (cr : create_request) : record :=
  match cr with
  | CreateEvent e => dict_display [
      KV "name" (VStr (EventCreate.name e));
      KV "event_type" (VStr (EventCreate.event_type e));
      KV "start_date" (VStr (EventCreate.start_date e));
      KV "end_date" (VStr (EventCreate.end_date e));
      KV "location" (VStr (EventCreate.location e));
      KV "venue_name" (VStr (EventCreate.venue_name e));
      KV "max_competitors" (VInt (EventCreate.max_competitors e));
      KV "early_bird_price" (VFloat (EventCreate.early_bird_price e));
      KV "regular_price" (VFloat (EventCreate.regular_price e));
      KV "description" (of_option_str (EventCreate.description e))]
  | CreateRegistration r => dict_display [
      KV "event_id" (VStr (CompetitorRegistration.event_id r));
      KV "competitor_name" (VStr (CompetitorRegistration.competitor_name r));
      KV "email" (VStr (CompetitorRegistration.email r));
      KV "phone" (VStr (CompetitorRegistration.phone r));
      KV "vehicle_info" (VDict (CompetitorRegistration.vehicle_info r));
      KV "class_id" (VStr (CompetitorRegistration.class_id r));
      KV "team_name" (of_option_str (CompetitorRegistration.team_name r))]
  | CreatePayment p => dict_display [
      KV "registration_id" (VStr (PaymentProcess.registration_id p));
      KV "amount" (VFloat (PaymentProcess.amount p));
      KV "currency" (VStr (PaymentProcess.currency p));
      KV "payment_method" (VStr (PaymentProcess.payment_method p));
      KV "metadata" (match PaymentProcess.metadata p with
                     | Some m => VDict m
                     | None => VNone
                     end)]
  | CreateTicket t => dict_display [
      KV "subject" (VStr (SupportTicket.subject t));
      KV "description" (VStr (SupportTicket.description t));
      KV "priority" (VStr (SupportTicket.priority t));
      KV "category" (VStr (SupportTicket.category t));
      KV "user_email" (VStr (SupportTicket.user_email t));
      KV "attachments" (match SupportTicket.attachments t with
                        | Some l => VList (VStr <$> l)
                        | None => VNone
                        end)]
  end.

(** The submitted fields an endpoint copies into the record it synthesizes,
    under the key it gives each. *)
Definition copied (cr : create_request) : list (string * value) :=
  match cr with
  | CreateEvent e => [
      ("name", VStr (EventCreate.name e));
      ("type", VStr (EventCreate.event_type e));
      ("start_date", VStr (EventCreate.start_date e));
      ("end_date", VStr (EventCreate.end_date e));
      ("location", VStr (EventCreate.location e));
      ("venue", VStr (EventCreate.venue_name e))]
  | CreateRegistration r => [
      ("event_id", VStr (CompetitorRegistration.event_id r));
      ("competitor", VStr (CompetitorRegistration.competitor_name r));
      ("email", VStr (CompetitorRegistration.email r));
      ("class", VStr (CompetitorRegistration.class_id r))]
  | CreatePayment p => [
      ("registration_id", VStr (PaymentProcess.registration_id p));
      ("amount", VFloat (PaymentProcess.amount p));
      ("currency", VStr (PaymentProcess.currency p));
      ("payment_method", VStr (PaymentProcess.payment_method p))]
  | CreateTicket t => [
      ("subject", VStr (SupportTicket.subject t));
      ("description", VStr (SupportTicket.description t));
      ("priority", VStr (SupportTicket.priority t));
      ("category", VStr (SupportTicket.category t));
      ("created_by", VStr (SupportTicket.user_email t))]
  end.

(** The four tables the shim inserts into. *)
Inductive table_kind : Type := Events | Registrations | Payments | Tickets.

Definition shim_create (self : SupabaseService.t) (k : table_kind)
    (row : record) : M (option record) :=
  match k with
  | Events => SupabaseService.create_event self row
  | Registrations => SupabaseService.create_registration self row
  | Payments => SupabaseService.create_payment_record self row
  | Tickets => SupabaseService.create_support_ticket self row
  end.

Definition mock_prefix (k : table_kind) : string :=
  match k with
  | Events => "evt_mock_"
  | Registrations => "reg_mock_"
  | Payments => "pay_mock_"
  | Tickets => "tkt_mock_"
  end.

(** The keys a mock response writes after unpacking the submitted row. *)
Definition mock_stamps (k : table_kind) : list string :=
  match k with
  | Events => ["created_at"; "updated_at"]
  | Registrations => ["status"; "created_at"]
  | Payments => ["status"; "processed_at"]
  | Tickets => ["status"; "created_at"]
  end.

(** The number of clock readings a mock response takes. *)
Definition mock_readings (k : table_kind) : nat :=
  match k with Events => 3%nat | _ => 2%nat end.

(** ** The shim operations, taken together *)

Inductive operation : Type :=
  | Create_event (event_data : record)
  | Get_events (status event_type : option string) (limit : Z)
  | Get_event_by_id (event_id : string)
  | Create_registration (registration_data : record)
  | Get_registrations (event_id user_id status : option string)
  | Get_event_analytics (event_id start_date end_date : option string)
  | Create_payment_record (payment_data : record)
  | Create_support_ticket (ticket_data : record).

Definition of_option (o : option record) : value :=
  match o with Some r => VDict r | None => VNone end.

Definition of_rows (l : list record) : value := VList (VDict <$> l).

Definition invoke (self : SupabaseService.t) (op : operation) : M value :=
  match op with
  | Create_event d => r <- SupabaseService.create_event self d ;; ret (of_option r)
  | Get_events s t n => r <- SupabaseService.get_events self s t n ;; ret (of_rows r)
  | Get_event_by_id i => r <- SupabaseService.get_event_by_id self i ;; ret (of_option r)
  | Create_registration d =>
      r <- SupabaseService.create_registration self d ;; ret (of_option r)
  | Get_registrations e u s =>
      r <- SupabaseService.get_registrations self e u s ;; ret (of_rows r)
  | Get_event_analytics e s d =>
      r <- SupabaseService.get_event_analytics self e s d ;; ret (VDict r)
  | Create_payment_record d =>
      r <- SupabaseService.create_payment_record self d ;; ret (of_option r)
  | Create_support_ticket d =>
      r <- SupabaseService.create_support_ticket self d ;; ret (of_option r)
  end.

(** The clock readings an operation takes in mock mode. *)
Definition readings (op : operation) : nat :=
  match op with
  | Create_event _ => 3%nat
  | Create_registration _ | Create_payment_record _ | Create_support_ticket _ => 2%nat
  | _ => 0%nat
  end.

(** The shape of a result: a mapping, or a list of mappings. *)
Definition is_mapping (v : value) : bool :=
  match v with VDict _ => true | _ => false end.

Definition is_mapping_list (v : value) : bool :=
  match v with VList l => forallb is_mapping l | _ => false end.

Definition well_shaped (op : operation) (v : value) : bool :=
  match op with
  | Get_events _ _ _ | Get_registrations _ _ _ => is_mapping_list v
  | _ => is_mapping v
  end.

(** ** Auxiliary definitions for the statements *)

(** The token [verify_token] compares against, in a given world. *)
Definition expected_token (w : world) : string :=
  default "car-audio-events-mcp-token" (environ w !! "MCP_API_TOKEN").

(** The challenge a rejected request is answered with. *)
Definition challenge : list (string * string) := [("WWW-Authenticate", "Bearer")].

(** An event passes a filter when the filter is not given (or empty) or the
    event's field equals it. *)
Definition passes (k : string) (wanted : option string) (e : record) : bool :=
  if truthy wanted then
    match e !! k with
    | Some v => eq_str v (unwrap wanted)
    | None => false
    end
  else true.

(** The sample events left by the status and event-type filters. *)
Definition remaining (status event_type : option string) : list record :=
  List.filter (passes "type" event_type)
    (List.filter (passes "status" status) Main.sample_events).

(** The three sub-queries of the analytics aggregation. *)
Definition registration_query (event_id start_date end_date : option string) : query :=
  where_if Lte "created_at" end_date
    (where_if Gte "created_at" start_date
       (where_if Eq_ "event_id" event_id
          (table_select "registrations" "*" (Some "exact")))).

Definition revenue_query (event_id start_date end_date : option string) : query :=
  where_ Eq_ "status" (VStr "succeeded")
    (where_if Lte "created_at" end_date
       (where_if Gte "created_at" start_date
          (where_if Eq_ "registration.event_id" event_id
             (table_select "payments" "amount, status, payment_method" None)))).

Definition attendance_query (event_id start_date end_date : option string) : query :=
  where_if Lte "checked_in_at" end_date
    (where_if Gte "checked_in_at" start_date
       (where_if Eq_ "event_id" event_id
          (table_select "event_check_ins" "*" (Some "exact")))).

(** The zero-valued default of each metric. *)
Definition zero_registrations : record :=
  dict_display [KV "total" (VInt 0); KV "data" (VList [])].

Definition zero_revenue : record :=
  dict_display [KV "total" (VInt 0); KV "transaction_count" (VInt 0);
                KV "data" (VList [])].

Definition zero_attendance : record :=
  dict_display [KV "total_checked_in" (VInt 0); KV "data" (VList [])].

(** The entry of each metric as a function of the outcome of its own
    sub-query. *)
Definition counted (response : APIResponse) : value :=
  match count response with
  | Some c => c
  | None => VInt (Z.of_nat (length (data response)))
  end.

Definition registrations_entry (outcome : result APIResponse) : record :=
  match outcome with
  | Returned response =>
      dict_display [KV "total" (counted response);
                    KV "data" (VList (VDict <$> data response))]
  | Raised _ => zero_registrations
  end.

Definition revenue_entry (outcome : result APIResponse) : record :=
  match outcome with
  | Returned response =>
      match sum_of "amount" (data response) with
      | Returned total =>
          dict_display [KV "total" total;
                        KV "transaction_count" (VInt (Z.of_nat (length (data response))));
                        KV "data" (VList (VDict <$> data response))]
      | Raised _ => zero_revenue
      end
  | Raised _ => zero_revenue
  end.

Definition attendance_entry (outcome : result APIResponse) : record :=
  match outcome with
  | Returned response =>
      dict_display [KV "total_checked_in" (counted response);
                    KV "data" (VList (VDict <$> data response))]
  | Raised _ => zero_attendance
  end.

(** A remote store answering the three sub-queries with three given
    outcomes. *)
Definition answering (o_registrations o_revenue o_attendance : result APIResponse)
  : Client :=
  {| execute := fun q =>
       if String.eqb (q_table q) "registrations" then o_registrations
       else if String.eqb (q_table q) "payments" then o_revenue
       else o_attendance |}.

(** The identifier of the record inside the envelope of a create endpoint. *)
Definition created_id (cr : create_request) (r : result record) : option value :=
  match r with
  | Returned envelope =>
      match envelope !! record_key cr with
      | Some (VDict created) => created !! "id"
      | _ => None
      end
  | Raised _ => None
  end.

(** The identifier of the record a shim create returns. *)
Definition returned_id (r : result (option record)) : option value :=
  match r with
  | Returned (Some created) => created !! "id"
  | _ => None
  end.

(** Which of the four create operations a request is for. *)
Definition kind_of (cr : create_request) : table_kind :=
  match cr with
  | CreateEvent _ => Events
  | CreateRegistration _ => Registrations
  | CreatePayment _ => Payments
  | CreateTicket _ => Tickets
  end.

(** The service in mock mode. *)
Definition mock_service : SupabaseService.t := {| SupabaseService.client := None |}.

(** A store none of whose requests gets through. *)
Definition unreachable : Client :=
  {| execute := fun _ => Raised (Exception_ "connection refused") |}.

(** *** Sample inputs *)

Definition reading_a : datetime :=
  {| timestamp_str := "1750000000.25";
     isoformat := "2025-06-15T15:06:40.250000";
     strftime_Ymd := "2025-06-15" |}.

Definition reading_b : datetime :=
  {| timestamp_str := "1750000001.75";
     isoformat := "2025-06-15T15:06:41.750000";
     strftime_Ymd := "2025-06-15" |}.

Definition world_a : world :=
  {| environ := ∅; clock := fun _ => reading_a; ticks := 0; log := [] |}.

Definition world_b : world :=
  {| environ := ∅; clock := fun _ => reading_b; ticks := 0; log := [] |}.

Definition good_token : HTTPAuthorizationCredentials :=
  {| scheme := "Bearer"; credentials := "car-audio-events-mcp-token" |}.

Definition bad_token : HTTPAuthorizationCredentials :=
  {| scheme := "Bearer"; credentials := "guess" |}.

Definition event0 : EventCreate.t :=
  {| EventCreate.name := "Bass Wars";
     EventCreate.event_type := "SPL";
     EventCreate.start_date := "2025-08-01";
     EventCreate.end_date := "2025-08-02";
     EventCreate.location := "Austin, TX";
     EventCreate.venue_name := "Expo Hall";
     EventCreate.max_competitors := 100;
     EventCreate.early_bird_price := binary64 20;
     EventCreate.regular_price := binary64 25;
     EventCreate.description := None |}.

Definition attendance_only : EventAnalytics.t :=
  {| EventAnalytics.event_id := None;
     EventAnalytics.start_date := None;
     EventAnalytics.end_date := None;
     EventAnalytics.metrics := ["attendance"] |}.

Definition row0 : record := dict_display [KV "name" (VStr "Bass Wars")].

(** *** The statements that do not hold, as the specification words them *)

(** A create endpoint answering with a record that carries every submitted
    field next to an identifier and a timestamp. *)
Definition carries_every_submitted_field (cr : create_request) (w : world) : Prop :=
  exists envelope created : record,
    fst (handle_create cr true w) = Returned envelope
    /\ envelope !! "success" = Some (VBool true)
    /\ envelope !! record_key cr = Some (VDict created)
    /\ (forall k v, submitted cr !! k = Some v -> exists k', created !! k' = Some v)
    /\ is_Some (created !! "id")
    /\ is_Some (created !! stamp_key cr).

(** Two invocations of one operation with the same arguments giving equal
    results. *)
Definition same_result_twice (self : SupabaseService.t) (op : operation)
    (w1 w2 : world) : Prop :=
  exists v, fst (invoke self op w1) = Returned v
            /\ fst (invoke self op w2) = Returned v.

(** A response that is an envelope with a boolean [success] field. *)
Definition is_envelope (r : response) : Prop :=
  exists (envelope : record) (b : bool),
    body r = VDict envelope /\ envelope !! "success" = Some (VBool b).

(** [count] being the number of events left by the filters, and exceeding
    the number of events returned whenever [limit] is below it. *)
Definition count_exceeds_returned (status event_type : option string)
    (limit : Z) (w : world) : Prop :=
  exists (envelope : record) (n : Z) (returned : list value),
    fst (Main.list_events status event_type limit w) = Returned envelope
    /\ envelope !! "count" = Some (VInt n)
    /\ envelope !! "events" = Some (VList returned)
    /\ n = Z.of_nat (length (remaining status event_type))
    /\ (limit < n -> Z.of_nat (length returned) < n).

(** *** Authentication *)

(** A bearer token that is missing, or differs from the expected one. *)
Definition missing_or_incorrect
    (authorization : option HTTPAuthorizationCredentials) (w : world) : Prop :=
  match authorization with
  | None => True
  | Some creds => credentials creds <> expected_token w
  end.

(** The two status routes, which answer outside the envelope. *)
Definition is_status_route (req : request) : bool :=
  match req with
  | GET_root | GET_health => true
  | _ => false
  end.

(** The body of an error response. *)
Definition detail_body (detail : string) : value :=
  VDict (dict_display [KV "detail" (VStr detail)]).

Definition event1 : EventCreate.t :=
  {| EventCreate.name := "SQ Night";
     EventCreate.event_type := "SQ";
     EventCreate.start_date := "2025-09-12";
     EventCreate.end_date := "2025-09-12";
     EventCreate.location := "Reno, NV";
     EventCreate.venue_name := "Fairgrounds";
     EventCreate.max_competitors := 40;
     EventCreate.early_bird_price := binary64 15;
     EventCreate.regular_price := binary64 30;
     EventCreate.description := Some "Evening sound-quality round" |}.

Definition row1 : record := dict_display [KV "name" (VStr "SQ Night")].

(** A value that is a string. *)
Definition is_str (v : value) : bool :=
  match v with VStr _ => true | _ => false end.

(** *** Accepted and refused requests *)

(** A header that names the bearer scheme and carries a token. *)
Definition is_bearer (creds : HTTPAuthorizationCredentials) : bool :=
  negb (String.eqb (scheme creds) EmptyString)
  && negb (String.eqb (credentials creds) EmptyString)
  && String.eqb (lower (scheme creds)) "bearer".

(** The requests an authenticated route lets through: a bearer header with
    the expected token. *)
Definition accepted (creds : HTTPAuthorizationCredentials) (w : world) : Prop :=
  is_bearer creds = true /\ credentials creds = expected_token w.

(** The others: no header, no bearer header, or another token. *)
Definition refused (authorization : option HTTPAuthorizationCredentials)
    (w : world) : Prop :=
  match authorization with
  | None => True
  | Some creds => is_bearer creds = false \/ credentials creds <> expected_token w
  end.

(** Whether the floats a create endpoint copies into its record are finite:
    only the payment endpoint copies one, the amount. *)
Definition echoes_finite (cr : create_request) : bool :=
  match cr with
  | CreatePayment p => is_finite (PaymentProcess.amount p)
  | _ => true
  end.

(** The same, of any request. *)
Definition renders (req : request) : bool :=
  match req with
  | POST_api_payments _ payment => is_finite (PaymentProcess.amount payment)
  | _ => true
  end.

(** The framework's answer to what it cannot render. *)
Definition plain_500 : response :=
  {| status := 500; headers := []; body := VStr "Internal Server Error" |}.

(** A world unlike [world_a] in environment, readings taken and log, whose
    clock from its fifth reading on reads what [world_a]'s reads from the
    start. *)
Definition world_later : world :=
  {| environ := {[ "MCP_API_TOKEN" := "s3cret" ]};
     clock := fun n => if (n <? 5)%nat then reading_b else reading_a;
     ticks := 5;
     log := [(INFO, [VStr "Creating event: "; VStr "SQ Night"])] |}.

(** A payment of an infinite amount, as the JSON number 1e400 is read. *)
Definition payment_inf : PaymentProcess.t :=
  {| PaymentProcess.registration_id := "reg_1";
     PaymentProcess.amount := S754_infinity false;
     PaymentProcess.currency := "USD";
     PaymentProcess.payment_method := "stripe";
     PaymentProcess.metadata := None |}.

(** *** Proof automation *)

(** Closes the side conditions on the keys a mock response stamps. *)
Ltac stamps_done :=
  split; [discriminate|]; split; [discriminate|];
  split; intros key Hkey;
  [rewrite !not_elem_of_cons in Hkey
  |rewrite !elem_of_cons, elem_of_nil in Hkey]; tauto.

(** ** mcp-use-agents/agents/car_audio_agent.py *)

(** The libraries the agent wraps: dotenv, the two LLM clients, the MCP
    client and the agent runtime.  Their constructors and calls can do
    anything to the world and can raise; an output stream is taken as the
    chunks (mappings) it delivers and the exception, if any, that ends
    it. *)
Record library : Type := {
  LLM : Type;
  MCPClient : Type;
  MCPAgent : Type;
  load_dotenv : M bool;
  ChatOpenAI : string -> M LLM;
  ChatAnthropic : string -> M LLM;
  from_config_file : string -> M MCPClient;
  from_dict : record -> M MCPClient;
  new_MCPAgent : LLM -> MCPClient -> Z -> bool -> bool -> M MCPAgent;
  agent_run : MCPAgent -> string -> option Z -> M string;
  agent_astream : MCPAgent -> string -> list record * option exception
}.

Definition ValueError (msg : string) : exception := Exception_ msg.

Module CarAudioEventsAgent.

Record t (lib : library) : Type := {
  llm : LLM lib;
  client : MCPClient lib;
  agent : MCPAgent lib
}.
Arguments llm {lib} _.
Arguments client {lib} _.
Arguments agent {lib} _.

Definition _get_default_config : record :=
  dict_display [
    KV "mcpServers" (VDict (dict_display [
      KV "car-audio-api" (VDict (dict_display [
        KV "url" (VStr "http://localhost:8000/mcp");
        KV "headers" (VDict (dict_display [
          KV "Authorization" (VStr "Bearer car-audio-events-mcp-token")]))]))]))].

Definition __init__ (lib : library) (llm_provider : string)
    (model config_file : option string) (max_steps : Z)
    (use_server_manager : bool) : M (t lib) :=
  load_dotenv lib ;;;
  made <- (if String.eqb llm_provider "openai" then
             let model := if truthy model then unwrap model else "gpt-4o" in
             l <- ChatOpenAI lib model ;; ret (model, l)
           else if String.eqb llm_provider "anthropic" then
             let model := if truthy model then unwrap model
                          else "claude-3-5-sonnet-20240620" in
             l <- ChatAnthropic lib model ;; ret (model, l)
           else
             raise (ValueError ("Unsupported LLM provider: " ++ llm_provider))) ;;
  let model := fst made in
  let self_llm := snd made in
  self_client <- (if truthy config_file
                  then from_config_file lib (unwrap config_file)
                  else let config := _get_default_config in
                       from_dict lib config) ;;
  self_agent <- new_MCPAgent lib self_llm self_client max_steps
                  use_server_manager true ;;
  logger_info [VStr "Car Audio Events Agent initialized with ";
               VStr llm_provider; VStr " ("; VStr model; VStr ")"] ;;;
  ret {| llm := self_llm; client := self_client; agent := self_agent |}.

Definition run {lib : library} (self : t lib) (query : string)
    (max_steps : option Z) : M string :=
  try_except
    (logger_info [VStr "Running query: "; VStr query] ;;;
     result <- agent_run lib (agent self) query max_steps ;;
     logger_info [VStr "Query completed successfully"] ;;;
     ret result)
    (fun e =>
       logger_error [VStr "Error running query: "; VStr (str e)] ;;;
       raise e).

(** What the generator yields: the value under a key, or an f-string, kept
    as its pieces. *)
Inductive yielded : Type :=
  | YValue (v : value)
  | YFormatted (pieces : list value).

Definition newline : string := String (Ascii.ascii_of_nat 10) EmptyString.

(** The yields of one chunk. *)
Definition yields_of (chunk : record) : list yielded :=
  (match chunk !! "messages" with
   | Some messages => [YValue messages]
   | None => []
   end)
  ++ (match chunk !! "output" with
      | Some output =>
          [YFormatted [VStr (newline ++ newline ++ "Final Result: "); output]]
      | None => []
      end).

(** The generator run to its end: everything it yields, and the exception
    it ends with, if any. *)
Definition stream {lib : library} (self : t lib) (query : string) (w : world)
  : (list yielded * option exception) * world :=
  let (_, w1) := logger_info [VStr "Streaming query: "; VStr query] w in
  let (chunks, failure) := agent_astream lib (agent self) query in
  let out := concat (yields_of <$> chunks) in
  match failure with
  | None => ((out, None), w1)
  | Some e =>
      let (_, w2) :=
        logger_error [VStr "Error streaming query: "; VStr (str e)] w1 in
      ((out, Some e), w2)
  end.

(** The three specialised agents; [max_steps] and [use_server_manager] keep
    their defaults. *)
Definition create_event_agent (lib : library) : M (t lib) :=
  __init__ lib "openai" None (Some "configs/car_audio_mcp.json") 30 true.

Definition create_analytics_agent (lib : library) : M (t lib) :=
  __init__ lib "openai" (Some "gpt-4o") (Some "configs/car_audio_mcp.json")
    30 true.

Definition create_support_agent (lib : library) : M (t lib) :=
  __init__ lib "anthropic" (Some "claude-3-5-sonnet-20240620")
    (Some "configs/car_audio_mcp.json") 30 true.

End CarAudioEventsAgent.

(** ** Further auxiliary definitions *)

(** The metric names [get_analytics] knows. *)
Definition known_metric (k : string) : Prop :=
  k = "registrations" \/ k = "revenue" \/ k = "attendance".

(** The metrics mapping and the period inside the envelope of
    [get_analytics]. *)
Definition analytics_part (part : string) (r : result record) : option value :=
  match r with
  | Returned envelope =>
      match envelope !! "analytics" with
      | Some (VDict analytics) => analytics !! part
      | _ => None
      end
  | Raised _ => None
  end.

(** The status a create endpoint gives the record it synthesizes. *)
Definition initial_status (cr : create_request) : string :=
  match cr with
  | CreateEvent _ => "draft"
  | CreateRegistration _ => "pending_payment"
  | CreatePayment _ => "succeeded"
  | CreateTicket _ => "open"
  end.

(** A field of the record inside the envelope of a create endpoint. *)
Definition created_field (cr : create_request) (k : string) (r : result record)
  : option value :=
  match r with
  | Returned envelope =>
      match envelope !! record_key cr with
      | Some (VDict created) => created !! k
      | _ => None
      end
  | Raised _ => None
  end.

(** The status a mock create response stamps, if it stamps one. *)
Definition mock_status (k : table_kind) : option string :=
  match k with
  | Events => None
  | Registrations => Some "pending_payment"
  | Payments => Some "succeeded"
  | Tickets => Some "open"
  end.

(** A field of the record a shim create returns. *)
Definition returned_field (k : string) (r : result (option record)) : option value :=
  match r with
  | Returned (Some created) => created !! k
  | _ => None
  end.

(** The request an operation sends to the store when there is a client; the
    analytics aggregation sends three and is left out. *)
Definition request_of (op : operation) : option query :=
  match op with
  | Create_event d => Some (table_insert "events" d)
  | Get_events s t n =>
      Some (limit_ n (where_if Eq_ "event_type" t
                        (where_if Eq_ "status" s (table_select "events" "*" None))))
  | Get_event_by_id i =>
      Some (where_ Eq_ "id" (VStr i) (table_select "events" "*" None))
  | Create_registration d => Some (table_insert "registrations" d)
  | Get_registrations e u s =>
      Some (where_if Eq_ "status" s
              (where_if Eq_ "user_id" u
                 (where_if Eq_ "event_id" e
                    (table_select "registrations" "*" None))))
  | Get_event_analytics _ _ _ => None
  | Create_payment_record d => Some (table_insert "payments" d)
  | Create_support_ticket d => Some (table_insert "support_tickets" d)
  end.


(** The world with one more log line. *)
Definition logged (lv : level) (msg : list value) (w : world) : world :=
  {| environ := environ w; clock := clock w; ticks := ticks w;
     log := log w ++ [(lv, msg)] |}.



(** Whether a request asks the store to count the rows. *)
Definition asks_count (q : query) : bool :=
  match q_action q with
  | Select _ (Some _) => true
  | _ => false
  end.

(** An answer of a store that holds no row: no data, and a count of 0 where
    a count was asked for. *)
Definition no_rows (q : query) (response : APIResponse) : Prop :=
  data response = []
  /\ (asks_count q = true -> count response = Some (VInt 0)).

(** The library calls of the agent's constructor, in the order it makes
    them: the LLM of the provider, with the model or the provider's
    default; the client, from the configuration file or the default
    configuration. *)
Definition build_llm (lib : library) (llm_provider : string)
    (model : option string) : M (LLM lib) :=
  if String.eqb llm_provider "openai"
  then ChatOpenAI lib (if truthy model then unwrap model else "gpt-4o")
  else ChatAnthropic lib (if truthy model then unwrap model
                          else "claude-3-5-sonnet-20240620").

Definition build_client (lib : library) (config_file : option string)
  : M (MCPClient lib) :=
  if truthy config_file then from_config_file lib (unwrap config_file)
  else from_dict lib CarAudioEventsAgent._get_default_config.

(** *** Further sample inputs *)

Definition world_locked : world :=
  {| environ := {[ "MCP_API_TOKEN" := "s3cret" ]};
     clock := fun _ => reading_a; ticks := 0; log := [] |}.

(** A clock that moves on between readings. *)
Definition world_ticking : world :=
  {| environ := ∅;
     clock := fun n => if Nat.even n then reading_a else reading_b;
     ticks := 0; log := [] |}.

Definition world_live : world :=
  {| environ := {[ "VITE_SUPABASE_URL" := "https://db.example";
                   "SUPABASE_SERVICE_ROLE_KEY" := "key" ]};
     clock := fun _ => reading_a; ticks := 0; log := [] |}.

Definition world_no_key : world :=
  {| environ := {[ "VITE_SUPABASE_URL" := "https://db.example";
                   "SUPABASE_SERVICE_ROLE_KEY" := EmptyString ]};
     clock := fun _ => reading_a; ticks := 0; log := [] |}.

Definition payment0 : PaymentProcess.t :=
  {| PaymentProcess.registration_id := "reg_1";
     PaymentProcess.amount := binary64 (-5);
     PaymentProcess.currency := "USD";
     PaymentProcess.payment_method := "cheque";
     PaymentProcess.metadata := None |}.

Definition two_payments : APIResponse :=
  {| data := [dict_display [KV "amount" (VInt 40)];
              dict_display [KV "amount" (VInt 25)]];
     count := None |}.

Definition one_bad_payment : APIResponse :=
  {| data := [dict_display [KV "amount" (VInt 40)];
              dict_display [KV "status" (VStr "succeeded")]];
     count := None |}.

(** A store that holds no row. *)
Definition empty_store : Client :=
  {| execute := fun q =>
       Returned {| data := [];
                   count := if asks_count q then Some (VInt 0) else Some VNone |} |}.

(** A stand-in for the libraries that records what it is called with. *)
Definition recording : library :=
  {| LLM := string;
     MCPClient := value;
     MCPAgent := string * value * Z;
     load_dotenv := ret true;
     ChatOpenAI := fun model => ret ("openai/" ++ model);
     ChatAnthropic := fun model => ret ("anthropic/" ++ model);
     from_config_file := fun path => ret (VStr path);
     from_dict := fun config => ret (VDict config);
     new_MCPAgent := fun l c max_steps _ _ => ret (l, c, max_steps);
     agent_run := fun _ query _ =>
       if String.eqb query "fail" then raise (Exception_ "no tools")
       else ret ("done: " ++ query);
     agent_astream := fun _ _ =>
       ([dict_display [KV "messages" (VStr "thinking")];
         dict_display [KV "steps" (VInt 1)];
         dict_display [KV "messages" (VStr "answering");
                       KV "output" (VStr "42")]],
        Some (Exception_ "connection lost")) |}.

(** The same libraries without an OpenAI key. *)
Definition keyless : library :=
  {| LLM := string;
     MCPClient := value;
     MCPAgent := string * value * Z;
     load_dotenv := ret true;
     ChatOpenAI := fun _ => raise (Exception_ "missing API key");
     ChatAnthropic := ChatAnthropic recording;
     from_config_file := from_config_file recording;
     from_dict := from_dict recording;
     new_MCPAgent := new_MCPAgent recording;
     agent_run := agent_run recording;
     agent_astream := agent_astream recording |}.

(** The same libraries with an agent runtime that cannot be built. *)
Definition runtimeless : library :=
  {| LLM := string;
     MCPClient := value;
     MCPAgent := string * value * Z;
     load_dotenv := ret true;
     ChatOpenAI := ChatOpenAI recording;
     ChatAnthropic := ChatAnthropic recording;
     from_config_file := from_config_file recording;
     from_dict := from_dict recording;
     new_MCPAgent := fun _ _ _ _ _ => raise (Exception_ "no server reachable");
     agent_run := agent_run recording;
     agent_astream := agent_astream recording |}.

Definition recorded_agent : CarAudioEventsAgent.t recording :=
  CarAudioEventsAgent.Build_t recording
    "openai/gpt-4o"
    (VStr "configs/car_audio_mcp.json")
    ("openai/gpt-4o", VStr "configs/car_audio_mcp.json", 30).

(** *** Further proof automation *)

(** Unfolds the seven operations that send one request. *)
Ltac unfold_operation :=
  cbn [invoke];
  unfold SupabaseService.create_event, SupabaseService.get_events,
    SupabaseService.get_event_by_id, SupabaseService.create_registration,
    SupabaseService.get_registrations, SupabaseService.create_payment_record,
    SupabaseService.create_support_ticket, SupabaseService.run,
    SupabaseService.log_and_reraise, try_except, bind, lift, ret,
    logger_error, emit, raise;
  cbn [SupabaseService.client]; cbv zeta.

(** * Properties *)

(** ** Listing events *)

Lemma select_eq_filter k s (l : list record) :
  truthy (Some s) = true ->
  Forall (fun e : record => is_Some (e !! k)) l ->
  select_eq k s l = Returned (List.filter (passes k (Some s)) l).
Proof.
  intros Hs. induction 1 as [|e l [v Hv] _ IH]; [reflexivity|].
  cbn [select_eq List.filter]. unfold getitem, passes at 1.
  rewrite Hv, IH, Hs. reflexivity.
Qed.

Lemma sample_events_keyed k :
  k = "status" \/ k = "type" ->
  Forall (fun e : record => is_Some (e !! k)) Main.sample_events.
Proof.
  intros [-> | ->]; repeat constructor; vm_compute; eauto.
Qed.

Lemma filter_keeps_keyed k (p : record -> bool) (l : list record) :
  Forall (fun e : record => is_Some (e !! k)) l ->
  Forall (fun e : record => is_Some (e !! k)) (List.filter p l).
Proof.
  induction 1 as [|e l He _ IH]; cbn [List.filter]; [constructor|].
  destruct (p e); [constructor|]; assumption.
Qed.

Lemma filter_untruthy k o (l : list record) :
  truthy o = false -> List.filter (passes k o) l = l.
Proof.
  intros Ho. induction l as [|e l IH]; cbn [List.filter]; [reflexivity|].
  unfold passes at 1. rewrite Ho, IH. reflexivity.
Qed.

Lemma truthy_Some o : truthy o = true -> o = Some (unwrap o).
Proof. destruct o; [reflexivity | discriminate]. Qed.

(** One filtering step of [list_events]. *)
Lemma filter_step k wanted (l : list record) :
  Forall (fun e : record => is_Some (e !! k)) l ->
  (if truthy wanted then lift (select_eq k (unwrap wanted) l) else ret l)
  = ret (List.filter (passes k wanted) l).
Proof.
  intros Hl. destruct (truthy wanted) eqn:Hw.
  - rewrite select_eq_filter, <- (truthy_Some _ Hw); auto.
    rewrite <- (truthy_Some _ Hw). exact Hw.
  - rewrite filter_untruthy by exact Hw. reflexivity.
Qed.

(** What [list_events] returns, for all filters and limits. *)
Lemma list_events_returns status event_type limit w :
  Main.list_events status event_type limit w =
    (Returned (dict_display [
       KV "success" (VBool true);
       KV "count" (VInt (Z.of_nat (length (remaining status event_type))));
       KV "events" (VList (VDict <$> slice_to limit (remaining status event_type)))]),
     w).
Proof.
  unfold Main.list_events, remaining, try_except, bind.
  rewrite (filter_step "status") by (apply sample_events_keyed; auto).
  unfold ret at 1. cbv beta iota.
  rewrite (filter_step "type")
    by (apply filter_keeps_keyed, sample_events_keyed; auto).
  reflexivity.
Qed.

Lemma slice_to_length {A} (stop : Z) (l : list A) :
  Z.of_nat (length (slice_to stop l))
  = Z.max 0 (Z.min (Z.of_nat (length l))
                   (if (0 <=? stop)%Z then stop else Z.of_nat (length l) + stop)).
Proof.
  unfold slice_to. destruct (Z.leb_spec 0 stop); rewrite length_take; lia.
Qed.

(** Slices of a three-element list, as Python gives them. *)
Example slice_to_examples :
  slice_to 2 [1; 2; 3] = [1; 2] /\ slice_to 5 [1; 2; 3] = [1; 2; 3]
  /\ slice_to (-1) [1; 2; 3] = [1; 2] /\ slice_to (-4) [1; 2; 3] = []
  /\ slice_to 0 [1; 2; 3] = [].
Proof. repeat split. Qed.

(** The default listing returns both sample events. *)
Example list_events_default :
  exists envelope : record,
    fst (Main.list_events None None 10 world_a) = Returned envelope
    /\ envelope !! "count" = Some (VInt 2)
    /\ envelope !! "events" = Some (VList (VDict <$> Main.sample_events)).
Proof. eexists. split; [reflexivity|]. split; reflexivity. Qed.

(** C3: listing with status "published", type "SPL" and limit 1 over the two
    sample events answers 200 with exactly one event, whose status is
    "published" and whose type is "SPL". *)
Theorem list_published_SPL_limit_1 (w : world) :
  exists e : record,
    app (GET_api_events (Some "published") (Some "SPL") 1) w =
      ({| status := 200; headers := [];
          body := VDict (dict_display [
            KV "success" (VBool true);
            KV "count" (VInt 1);
            KV "events" (VList [VDict e])]) |}, w)
    /\ e !! "status" = Some (VStr "published")
    /\ e !! "type" = Some (VStr "SPL").
Proof.
  eexists. split; [reflexivity|]. split; vm_compute; reflexivity.
Qed.

(** C9, as worded, fails: with status "draft" no sample event is left, and
    limit -1 is below that count of 0, yet 0 does not exceed the 0 events
    returned. *)
Lemma count_exceeds_returned_fails :
  ~ count_exceeds_returned (Some "draft") None (-1) world_a.
Proof.
  intros (envelope & n & returned & Hret & Hcount & Hevents & Hn & Hlt).
  rewrite list_events_returns in Hret. cbn [fst] in Hret.
  injection Hret as <-.
  vm_compute in Hn. subst n.
  vm_compute in Hevents. injection Hevents as <-.
  specialize (Hlt eq_refl). vm_compute in Hlt. discriminate.
Qed.

(** C9 (amended): the count of a list-events response is the number of
    sample events left by the status and event-type filters, taken before
    the limit; when the limit is below that number and some event is left,
    the count strictly exceeds the number of events returned. *)
Theorem list_events_count_before_limit status event_type limit (w : world) :
  exists envelope : record,
    fst (Main.list_events status event_type limit w) = Returned envelope
    /\ envelope !! "count"
       = Some (VInt (Z.of_nat (length (remaining status event_type))))
    /\ envelope !! "events"
       = Some (VList (VDict <$> slice_to limit (remaining status event_type)))
    /\ (limit < Z.of_nat (length (remaining status event_type)) ->
        0 < Z.of_nat (length (remaining status event_type)) ->
        Z.of_nat (length (VDict <$> slice_to limit (remaining status event_type)))
        < Z.of_nat (length (remaining status event_type))).
Proof.
  rewrite list_events_returns. eexists. split; [reflexivity|].
  split; [reflexivity|]. split; [reflexivity|].
  intros Hlimit Hsome. rewrite length_fmap, slice_to_length.
  destruct (Z.leb_spec 0 limit); lia.
Qed.

(** C9 (amended) at limit 1 over the two published events. *)
Lemma list_events_count_before_limit_witness :
  exists envelope : record,
    fst (Main.list_events (Some "published") None 1 world_a) = Returned envelope
    /\ envelope !! "count" = Some (VInt 2)
    /\ Z.of_nat (length (VDict <$> slice_to 1 (remaining (Some "published") None))) < 2.
Proof.
  destruct (list_events_count_before_limit (Some "published") None 1 world_a)
    as (envelope & Hret & Hcount & _ & Hlt).
  exists envelope. split; [exact Hret|]. split; [exact Hcount|].
  apply Hlt; vm_compute; reflexivity.
Defined.

(** ** Authentication and the shape of responses *)

Lemma verify_token_rejects creds w :
  credentials creds <> expected_token w ->
  Main.verify_token creds w
  = (Raised (HTTPException 401 "Invalid authentication credentials" challenge), w).
Proof.
  intros Hne. unfold Main.verify_token, bind, getenv_default.
  fold (expected_token w).
  apply String.eqb_neq in Hne. rewrite Hne. reflexivity.
Qed.

Lemma verify_token_accepts creds w :
  credentials creds = expected_token w ->
  Main.verify_token creds w = (Returned true, w).
Proof.
  intros Heq. unfold Main.verify_token, bind, getenv_default.
  fold (expected_token w).
  apply String.eqb_eq in Heq. rewrite Heq. reflexivity.
Qed.

(** What the security scheme does with a header. *)
Lemma security_hands_on creds w :
  is_bearer creds = true -> Main.security (Some creds) w = (Returned creds, w).
Proof.
  unfold is_bearer, Main.security. intros H.
  apply andb_true_iff in H as [H Hlower].
  apply andb_true_iff in H as [Hscheme Hcreds].
  apply negb_true_iff in Hscheme, Hcreds.
  rewrite Hscheme, Hcreds, Hlower. reflexivity.
Qed.

Lemma security_challenges creds w :
  is_bearer creds = false ->
  exists detail,
    Main.security (Some creds) w = (Raised (HTTPException 401 detail challenge), w).
Proof.
  unfold is_bearer, Main.security. intros H.
  destruct (String.eqb (scheme creds) EmptyString);
    [eexists; reflexivity|].
  destruct (String.eqb (credentials creds) EmptyString);
    [eexists; reflexivity|].
  cbn [negb andb orb] in *. rewrite H. eexists. reflexivity.
Qed.

Lemma missing_or_incorrect_refused authorization w :
  missing_or_incorrect authorization w -> refused authorization w.
Proof.
  destruct authorization as [creds|]; cbn [missing_or_incorrect refused]; auto.
Qed.

Lemma Depends_verify_token_refuses authorization w :
  refused authorization w ->
  exists detail,
    Depends_verify_token authorization w
    = (Raised (HTTPException 401 detail challenge), w).
Proof.
  destruct authorization as [creds|]; cbn [refused]; intros H.
  - unfold Depends_verify_token, bind.
    destruct (is_bearer creds) eqn:Hbearer.
    + destruct H as [H|H]; [discriminate H|].
      rewrite (security_hands_on _ _ Hbearer).
      exists "Invalid authentication credentials".
      apply verify_token_rejects, H.
    + destruct (security_challenges creds w Hbearer) as [detail ->].
      exists detail. reflexivity.
  - exists "Not authenticated". reflexivity.
Qed.

Lemma Depends_verify_token_rejects authorization w :
  missing_or_incorrect authorization w ->
  exists detail,
    Depends_verify_token authorization w
    = (Raised (HTTPException 401 detail challenge), w).
Proof.
  intros H. apply Depends_verify_token_refuses, missing_or_incorrect_refused, H.
Qed.

Lemma Depends_verify_token_accepts creds w :
  accepted creds w ->
  Depends_verify_token (Some creds) w = (Returned true, w).
Proof.
  intros [Hbearer Htoken]. unfold Depends_verify_token, bind.
  rewrite (security_hands_on _ _ Hbearer).
  apply verify_token_accepts, Htoken.
Qed.

(** A request is either refused or accepted. *)
Lemma token_cases authorization w :
  refused authorization w
  \/ exists creds, authorization = Some creds /\ accepted creds w.
Proof.
  destruct authorization as [creds|]; [|left; exact I].
  cbn [refused]. unfold accepted.
  destruct (is_bearer creds) eqn:Hbearer; [|left; left; reflexivity].
  destruct (String.eqb_spec (credentials creds) (expected_token w)).
  - right. exists creds. repeat split; assumption.
  - left. right. assumption.
Qed.

Lemma accepted_not_refused creds w :
  accepted creds w -> ~ refused (Some creds) w.
Proof.
  intros [Hbearer Htoken] [H|H]; [rewrite Hbearer in H; discriminate H|].
  exact (H Htoken).
Qed.

(** An authenticated route hands the request to [Depends_verify_token]
    first, and to its endpoint only with what that returns. *)
Lemma dispatch_authenticated req authorization :
  authorization_of req = Some authorization ->
  exists endpoint : bool -> M record,
    dispatch req = (authenticated <- Depends_verify_token authorization ;;
                    endpoint authenticated).
Proof.
  destruct req; cbn [authorization_of]; intros [= <-]; eexists; reflexivity.
Qed.

(** What a request with a refused token gets, and leaves behind. *)
Lemma app_rejects req authorization w :
  authorization_of req = Some authorization ->
  refused authorization w ->
  exists detail,
    app req w = ({| status := 401; headers := challenge;
                    body := detail_body detail |}, w).
Proof.
  intros Hroute Hbad.
  destruct (dispatch_authenticated _ _ Hroute) as [endpoint Hd].
  destruct (Depends_verify_token_refuses _ _ Hbad) as [detail Hrej].
  exists detail. unfold app. rewrite Hd. unfold bind. rewrite Hrej.
  reflexivity.
Qed.

(** C2: a request to an authenticated route whose bearer token is missing or
    incorrect is answered 401 with a [WWW-Authenticate: Bearer] header, and
    the world is left as it was: no clock reading, no log line, so the
    endpoint body was not entered and nothing was created. *)
Theorem unauthenticated_request_rejected req authorization (w : world) :
  authorization_of req = Some authorization ->
  missing_or_incorrect authorization w ->
  exists detail,
    app req w = ({| status := 401;
                    headers := [("WWW-Authenticate", "Bearer")];
                    body := detail_body detail |}, w).
Proof.
  intros Hroute Hbad.
  apply (app_rejects req authorization w Hroute).
  apply missing_or_incorrect_refused, Hbad.
Qed.

(** C2 at a create-event request carrying a wrong token. *)
Lemma unauthenticated_request_rejected_witness :
  exists detail,
    app (POST_api_events (Some bad_token) event0) world_a
    = ({| status := 401;
          headers := [("WWW-Authenticate", "Bearer")];
          body := detail_body detail |}, world_a).
Proof.
  apply (unauthenticated_request_rejected
           (POST_api_events (Some bad_token) event0) (Some bad_token) world_a).
  - reflexivity.
  - vm_compute. discriminate.
Defined.

(** Every endpoint body starts by logging, so entering one shows in the
    world. *)
Lemma create_endpoint_entered cr authenticated w :
  exists envelope w',
    handle_create cr authenticated w = (Returned envelope, w')
    /\ envelope !! "success" = Some (VBool true)
    /\ length (log w') = S (length (log w))
    /\ ticks w' = S (S (ticks w)).
Proof.
  destruct cr; eexists; eexists; (split; [reflexivity|]);
    (split; [reflexivity|]); cbn [log ticks]; rewrite length_app;
    cbn [length]; (split; [lia | reflexivity]).
Qed.

Lemma get_analytics_returns request authenticated w :
  exists (analytics : record) w',
    Main.get_analytics request authenticated w
    = (Returned (dict_display [KV "success" (VBool true);
                               KV "analytics" (VDict analytics)]), w')
    /\ length (log w') = S (length (log w)).
Proof.
  unfold Main.get_analytics, try_except, bind, logger_info, emit.
  destruct (truthy (EventAnalytics.end_date request));
    eexists; eexists; (split; [reflexivity|]);
    cbn [log]; rewrite length_app; cbn [length]; lia.
Qed.

(** An exception raised in an endpoint body surfaces as a 500 whose detail
    is the stringified exception. *)
Lemma surface_500_catches (body : M record) doing e w w' :
  body w = (Raised e, w') ->
  exists w'',
    try_except body (Main.surface_500 doing) w
    = (Raised (HTTPException 500 (str e) []), w'').
Proof.
  intros Hb. unfold try_except. rewrite Hb. eexists. reflexivity.
Qed.

(** ** Rendering *)

Lemma json_compliant_dict (d : record) :
  json_compliant (VDict d) = true
  <-> map_Forall (fun (_ : string) v => json_compliant v = true) d.
Proof.
  cbn [json_compliant].
  apply (map_fold_weak_ind
           (fun (r : bool) (m : record) =>
              r = true <-> map_Forall (fun (_ : string) v => json_compliant v = true) m)).
  - split; [intros _; apply map_Forall_empty | reflexivity].
  - intros k v m r Hk IH. rewrite andb_true_iff, IH.
    rewrite map_Forall_insert by exact Hk. reflexivity.
Qed.

Lemma json_compliant_rows (l : list record) :
  Forall (fun e : record => json_compliant (VDict e) = true) l ->
  json_compliant (VList (VDict <$> l)) = true.
Proof.
  intros H. change (forallb json_compliant (VDict <$> l) = true).
  induction H as [|e l He _ IH]; [reflexivity|].
  rewrite fmap_cons. cbn [forallb]. rewrite He, IH. reflexivity.
Qed.

Lemma sample_events_compliant :
  Forall (fun e : record => json_compliant (VDict e) = true) Main.sample_events.
Proof. repeat constructor. Qed.

Lemma Forall_filter_bool {A} (P : A -> Prop) (p : A -> bool) (l : list A) :
  Forall P l -> Forall P (List.filter p l).
Proof.
  induction 1 as [|x l Hx _ IH]; cbn [List.filter]; [constructor|].
  destruct (p x); [constructor|]; assumption.
Qed.

Lemma Forall_slice_to {A} (P : A -> Prop) (stop : Z) (l : list A) :
  Forall P l -> Forall P (slice_to stop l).
Proof.
  intros H. unfold slice_to. destruct (0 <=? stop)%Z; apply Forall_take, H.
Qed.

(** What a listing answers, rendered. *)
Lemma app_list_events status event_type limit w :
  app (GET_api_events status event_type limit) w
  = ({| status := 200; headers := [];
        body := VDict (dict_display [
          KV "success" (VBool true);
          KV "count" (VInt (Z.of_nat (length (remaining status event_type))));
          KV "events" (VList (VDict <$> slice_to limit
                                          (remaining status event_type)))]) |},
     w).
Proof.
  unfold app. cbn [dispatch]. rewrite list_events_returns. cbn [respond].
  replace (json_compliant _) with true; [reflexivity|].
  symmetry. apply json_compliant_dict.
  unfold dict_display. cbn [fold_left].
  apply map_Forall_insert_2.
  - apply json_compliant_rows, Forall_slice_to.
    unfold remaining. do 2 apply Forall_filter_bool.
    exact sample_events_compliant.
  - apply map_Forall_insert_2; [reflexivity|].
    apply map_Forall_insert_2; [reflexivity|].
    apply map_Forall_empty.
Qed.

(** The envelope of a create endpoint can be written as JSON exactly when
    the float it copies, if any, is finite. *)
Lemma create_endpoint_renders cr authenticated w :
  exists (envelope : record) w',
    handle_create cr authenticated w = (Returned envelope, w')
    /\ json_compliant (VDict envelope) = echoes_finite cr.
Proof.
  destruct cr as [event | registration | payment | ticket];
    [| | destruct payment as [rid [s|s| |s m e] cur method meta] |];
    eexists; eexists; split; reflexivity.
Qed.

(** What a create route answers to an accepted request. *)
Lemma app_create_accepts creds cr w :
  accepted creds w ->
  exists (envelope : record) w',
    handle_create cr true w = (Returned envelope, w')
    /\ app (create_route (Some creds) cr) w
       = (if echoes_finite cr
          then {| status := 200; headers := []; body := VDict envelope |}
          else plain_500, w').
Proof.
  intros Hok.
  destruct (create_endpoint_renders cr true w) as (envelope & w' & Hret & Hjson).
  exists envelope, w'. split; [exact Hret|].
  unfold app. destruct cr; cbn [create_route dispatch]; unfold bind;
    rewrite (Depends_verify_token_accepts _ _ Hok);
    cbn [handle_create] in Hret; rewrite Hret; cbn [respond];
    rewrite Hjson; reflexivity.
Qed.

Lemma get_analytics_renders request authenticated w :
  exists (envelope : record) w',
    Main.get_analytics request authenticated w = (Returned envelope, w')
    /\ envelope !! "success" = Some (VBool true)
    /\ json_compliant (VDict envelope) = true.
Proof.
  unfold Main.get_analytics, try_except, bind, logger_info, emit.
  destruct (truthy (EventAnalytics.end_date request));
    destruct (contains (EventAnalytics.metrics request) "registrations");
    destruct (contains (EventAnalytics.metrics request) "revenue");
    destruct (contains (EventAnalytics.metrics request) "attendance");
    eexists; eexists; (split; [reflexivity|]); split; reflexivity.
Qed.

Lemma create_route_cases req :
  (exists authorization cr, req = create_route authorization cr)
  \/ (exists authorization request, req = POST_api_analytics authorization request)
  \/ authorization_of req = None.
Proof.
  destruct req; try (right; right; reflexivity).
  - left. exists authorization, (CreateEvent event). reflexivity.
  - left. exists authorization, (CreateRegistration registration). reflexivity.
  - right. left. eauto.
  - left. exists authorization, (CreatePayment payment). reflexivity.
  - left. exists authorization, (CreateTicket ticket). reflexivity.
Qed.

Lemma authorization_of_create_route authorization cr :
  authorization_of (create_route authorization cr) = Some authorization.
Proof. destruct cr; reflexivity. Qed.

Lemma is_status_route_create_route authorization cr :
  is_status_route (create_route authorization cr) = false.
Proof. destruct cr; reflexivity. Qed.

Lemma renders_create_route authorization cr :
  renders (create_route authorization cr) = echoes_finite cr.
Proof. destruct cr; reflexivity. Qed.

(** With an accepted token the endpoint body is entered, which shows in
    the log. *)
Lemma accepted_request_enters req creds w :
  authorization_of req = Some (Some creds) ->
  accepted creds w ->
  length (log (snd (app req w))) = S (length (log w)).
Proof.
  intros Hroute Hok.
  destruct (create_route_cases req)
    as [(a & cr & ->) | [(a & request & ->) | Hopen]]; [| |congruence].
  - rewrite authorization_of_create_route in Hroute. injection Hroute as ->.
    destruct (app_create_accepts creds cr w Hok) as (envelope & w' & Hret & ->).
    destruct (create_endpoint_entered cr true w)
      as (envelope' & w'' & Hret' & _ & Hlog & _).
    rewrite Hret in Hret'. injection Hret' as <- <-. exact Hlog.
  - cbn [authorization_of] in Hroute. injection Hroute as ->.
    destruct (get_analytics_returns request true w)
      as (analytics & w' & Hret & Hlog).
    unfold app. cbn [dispatch]. unfold bind.
    rewrite (Depends_verify_token_accepts _ _ Hok), Hret. exact Hlog.
Qed.

(** The root and health routes answer with a mapping that has no [success]
    field. *)
Lemma status_routes_bare req w :
  is_status_route req = true ->
  exists bare : record,
    fst (app req w) = {| status := 200; headers := []; body := VDict bare |}
    /\ bare !! "success" = None.
Proof.
  destruct req; try discriminate; intros _; eexists; split; reflexivity.
Qed.

(** What any request is answered with: the outcome of its route, and the
    response made of it. *)
Lemma dispatch_cases req w :
  (exists (envelope : record) w',
     dispatch req w = (Returned envelope, w')
     /\ envelope !! "success"
        = (if is_status_route req then None else Some (VBool true))
     /\ json_compliant (VDict envelope) = renders req
     /\ forall authorization, authorization_of req = Some authorization ->
          exists creds, authorization = Some creds /\ accepted creds w)
  \/ (exists detail authorization,
        dispatch req w = (Raised (HTTPException 401 detail challenge), w)
        /\ authorization_of req = Some authorization
        /\ refused authorization w).
Proof.
  destruct (create_route_cases req)
    as [(authorization & cr & ->) | [(authorization & request & ->) | Hopen]].
  - destruct (token_cases authorization w) as [Hbad | (creds & -> & Hok)].
    + right. destruct (Depends_verify_token_refuses _ _ Hbad) as [detail Hrej].
      exists detail, authorization.
      split; [|split; [apply authorization_of_create_route | exact Hbad]].
      destruct cr; cbn [create_route dispatch]; unfold bind; rewrite Hrej;
        reflexivity.
    + left.
      destruct (create_endpoint_renders cr true w)
        as (envelope & w' & Hret & Hjson).
      destruct (create_endpoint_entered cr true w)
        as (envelope' & w'' & Hret' & Hsuccess & _).
      rewrite Hret in Hret'. injection Hret' as <- <-.
      exists envelope, w'.
      rewrite is_status_route_create_route, renders_create_route.
      split; [|split; [exact Hsuccess | split; [exact Hjson|]]].
      * destruct cr; cbn [create_route dispatch]; unfold bind;
          rewrite (Depends_verify_token_accepts _ _ Hok); exact Hret.
      * intros a Ha. rewrite authorization_of_create_route in Ha.
        injection Ha as <-. eauto.
  - destruct (token_cases authorization w) as [Hbad | (creds & -> & Hok)].
    + right. destruct (Depends_verify_token_refuses _ _ Hbad) as [detail Hrej].
      exists detail, authorization.
      split; [|split; [reflexivity | exact Hbad]].
      cbn [dispatch]. unfold bind. rewrite Hrej. reflexivity.
    + left.
      destruct (get_analytics_renders request true w)
        as (envelope & w' & Hret & Hsuccess & Hjson).
      exists envelope, w'.
      split; [|split; [exact Hsuccess | split; [exact Hjson|]]].
      * cbn [dispatch]. unfold bind.
        rewrite (Depends_verify_token_accepts _ _ Hok). exact Hret.
      * intros a [= <-]. eauto.
  - left.
    destruct req as [ | | ? ? | wanted_status wanted_type limit | ? ? | ? ?
                    | ? ? | ? ? ]; try discriminate Hopen.
    + do 2 eexists. split; [reflexivity|]. split; [reflexivity|].
      split; [reflexivity|]. intros a Ha. discriminate Ha.
    + do 2 eexists. split; [reflexivity|]. split; [reflexivity|].
      split; [reflexivity|]. intros a Ha. discriminate Ha.
    + pose proof (app_list_events wanted_status wanted_type limit w) as Happ.
      unfold app in Happ. cbn [dispatch] in *.
      rewrite list_events_returns in *.
      do 2 eexists. split; [reflexivity|]. split; [reflexivity|].
      split; [|intros a Ha; discriminate Ha].
      cbn [respond] in Happ.
      destruct (json_compliant _); [reflexivity|].
      injection Happ as Hstatus. discriminate Hstatus.
Qed.

(** C6, as worded, fails: the root response has no [success] field. *)
Lemma root_response_no_envelope :
  ~ is_envelope (fst (app GET_root world_a)).
Proof.
  intros (envelope & b & Hbody & Hsuccess).
  destruct (status_routes_bare GET_root world_a eq_refl)
    as (bare & Hbare & Hnone).
  rewrite Hbare in Hbody. injection Hbody as <-.
  rewrite Hnone in Hsuccess. discriminate Hsuccess.
Qed.

(** C6 (amended): every response is one of three: a 200 whose body is a
    mapping, with [success = true] on the six /api operations and no
    [success] field on the root and health routes; a 401 carrying the
    challenge header and a body [{"detail": ...}], sent to a request of an
    authenticated route whose header is missing, is no bearer header or
    carries another token than the expected one; or the framework's bare
    500, sent to an accepted payment request whose amount is not finite.
    An error body has no [success] field.  The only exception that leaves a
    route is that 401: no request reaches the except clause of an endpoint,
    so no 500 carrying a stringified exception is sent. *)
Theorem responses_and_errors req (w : world) :
  ((status (fst (app req w)) = 200
    /\ exists envelope : record,
         body (fst (app req w)) = VDict envelope
         /\ envelope !! "success"
            = (if is_status_route req then None else Some (VBool true)))
   \/ (status (fst (app req w)) = 401
       /\ headers (fst (app req w)) = [("WWW-Authenticate", "Bearer")]
       /\ (exists detail, body (fst (app req w)) = detail_body detail)
       /\ exists authorization,
            authorization_of req = Some authorization
            /\ refused authorization w)
   \/ (fst (app req w) = plain_500
       /\ exists creds payment,
            req = POST_api_payments (Some creds) payment
            /\ accepted creds w
            /\ is_finite (PaymentProcess.amount payment) = false))
  /\ (forall detail (error : record),
        detail_body detail = VDict error -> error !! "success" = None)
  /\ (forall e,
        fst (dispatch req w) = Raised e ->
        exists detail,
          e = HTTPException 401 detail [("WWW-Authenticate", "Bearer")]).
Proof.
  split; [|split].
  - unfold app.
    destruct (dispatch_cases req w)
      as [(envelope & w' & -> & Hsuccess & Hjson & Hauth)
         | (detail & authorization & -> & Hroute & Hbad)].
    + cbn [respond fst]. rewrite Hjson.
      destruct (renders req) eqn:Hrenders.
      * left. cbn [status body]. eauto.
      * right. right. split; [reflexivity|].
        destruct req; try discriminate Hrenders.
        destruct (Hauth authorization eq_refl) as (creds & -> & Hok).
        exists creds, payment. auto.
    + right. left. cbn [respond fst status headers body]. eauto 8.
  - intros detail error [= <-]. reflexivity.
  - intros e He.
    destruct (dispatch_cases req w)
      as [(envelope & w' & Hd & _) | (detail & authorization & Hd & _)];
      rewrite Hd in He; cbn [fst] in He; [discriminate He|].
    injection He as <-. eauto.
Qed.

(** C6 (amended) at a refused create-event request: the body of the error
    has no [success] field, and the exception that leaves the route is the
    401. *)
Lemma responses_and_errors_witness :
  (forall error : record,
     detail_body "Invalid authentication credentials" = VDict error ->
     error !! "success" = None)
  /\ exists detail,
       HTTPException 401 "Invalid authentication credentials" challenge
       = HTTPException 401 detail [("WWW-Authenticate", "Bearer")].
Proof.
  destruct (responses_and_errors (POST_api_events (Some bad_token) event0)
              world_a) as (_ & Herror & Hraised).
  split.
  - exact (Herror "Invalid authentication credentials").
  - apply (Hraised (HTTPException 401 "Invalid authentication credentials"
                      challenge)).
    reflexivity.
Defined.

(** An accepted payment of an infinite amount: the endpoint returns its
    envelope, and the response is the bare 500. *)
Example infinite_amount_is_plain_500 :
  fst (app (POST_api_payments (Some good_token) payment_inf) world_a) = plain_500.
Proof. reflexivity. Qed.

(** The right token under another scheme is refused. *)
Example basic_scheme_is_refused :
  status (fst (app (POST_api_events
                      (Some {| scheme := "Basic";
                               credentials := "car-audio-events-mcp-token" |})
                      event0) world_a)) = 401.
Proof. reflexivity. Qed.

(** ** Analytics endpoint *)

(** C7: an analytics request whose metrics are exactly ["attendance"] is
    answered with a metrics mapping that has an attendance entry and neither
    a registrations nor a revenue key. *)
Theorem attendance_only_metrics request authenticated (w : world) :
  EventAnalytics.metrics request = ["attendance"] ->
  exists envelope analytics metrics : record,
    fst (Main.get_analytics request authenticated w) = Returned envelope
    /\ envelope !! "success" = Some (VBool true)
    /\ envelope !! "analytics" = Some (VDict analytics)
    /\ analytics !! "metrics" = Some (VDict metrics)
    /\ metrics !! "registrations" = None
    /\ metrics !! "revenue" = None
    /\ is_Some (metrics !! "attendance").
Proof.
  intros Hmetrics.
  unfold Main.get_analytics, try_except, bind, logger_info, emit.
  rewrite Hmetrics.
  destruct (truthy (EventAnalytics.end_date request));
    eexists; eexists; eexists; (split; [reflexivity|]);
    (split; [reflexivity|]); (split; [reflexivity|]);
    (split; [reflexivity|]); (split; [reflexivity|]);
    (split; [reflexivity|]); eexists; reflexivity.
Qed.

(** C7 at a request for attendance alone. *)
Lemma attendance_only_metrics_witness :
  exists envelope analytics metrics : record,
    fst (Main.get_analytics attendance_only true world_a) = Returned envelope
    /\ envelope !! "success" = Some (VBool true)
    /\ envelope !! "analytics" = Some (VDict analytics)
    /\ analytics !! "metrics" = Some (VDict metrics)
    /\ metrics !! "registrations" = None
    /\ metrics !! "revenue" = None
    /\ is_Some (metrics !! "attendance").
Proof.
  apply (attendance_only_metrics attendance_only true world_a). reflexivity.
Defined.

(** ** The shim in mock mode *)

(** Without both credentials in the environment the service starts in mock
    mode. *)
Lemma init_without_credentials create_client w :
  truthy (environ w !! "VITE_SUPABASE_URL") = false
  \/ truthy (environ w !! "SUPABASE_SERVICE_ROLE_KEY") = false ->
  fst (SupabaseService.__init__ create_client w) = Returned mock_service.
Proof.
  unfold SupabaseService.__init__, bind, getenv.
  intros [-> | ->]; [reflexivity|].
  rewrite orb_true_r. reflexivity.
Qed.

(** C10: in mock mode get-event-by-id returns a record for every event id,
    never the not-found result, and the record's id is the requested one. *)
Theorem mock_get_event_by_id_always_found event_id (w : world) :
  exists found : record,
    SupabaseService.get_event_by_id mock_service event_id w
    = (Returned (Some found), w)
    /\ found !! "id" = Some (VStr event_id).
Proof.
  eexists. split; reflexivity.
Qed.

(** ** Create operations *)

(** C1, as worded, fails: the record synthesized for [event0] holds strings
    only, so the submitted [max_competitors = 100] is under none of its
    keys. *)
Lemma create_event_drops_fields :
  ~ carries_every_submitted_field (CreateEvent event0) world_a.
Proof.
  intros (envelope & created & Hret & _ & Hkey & Hall & _).
  set (synthesized := dict_display [
         KV "id" (VStr "evt_1750000000.25");
         KV "name" (VStr "Bass Wars");
         KV "type" (VStr "SPL");
         KV "start_date" (VStr "2025-08-01");
         KV "end_date" (VStr "2025-08-02");
         KV "location" (VStr "Austin, TX");
         KV "venue" (VStr "Expo Hall");
         KV "status" (VStr "draft");
         KV "created_at" (VStr "2025-06-15T15:06:40.250000")]).
  assert (Hcreated : Some (VDict created) = Some (VDict synthesized)).
  { rewrite <- Hkey.
    change (fst (handle_create (CreateEvent event0) true world_a))
      with (Returned (dict_display [
              KV "success" (VBool true);
              KV "message" (VStr "Event 'Bass Wars' created successfully");
              KV "event" (VDict synthesized)])) in Hret.
    injection Hret as <-. reflexivity. }
  injection Hcreated as ->.
  destruct (Hall "max_competitors" (VInt 100) eq_refl) as [k' Hk'].
  assert (Hstr : map_Forall (fun (_ : string) v => is_str v = true) synthesized).
  { apply map_Forall_to_list. vm_compute. repeat constructor. }
  specialize (Hstr k' (VInt 100) Hk'). discriminate Hstr.
Qed.

(** The shape every mock create response has: the generated identifier, the
    submitted row over it, two stamps over both. *)
Lemma stamped_lookup_other (row : record) i k1 v1 k2 v2 key :
  key <> k1 -> key <> k2 -> is_Some (row !! key) ->
  dict_display [KV "id" i; Unpack row; KV k1 v1; KV k2 v2] !! key = row !! key.
Proof.
  intros H1 H2 [v Hv]. unfold dict_display. cbn [fold_left].
  rewrite !lookup_insert_ne by congruence.
  rewrite Hv. apply lookup_union_Some_l. exact Hv.
Qed.

Lemma stamped_lookup_id (row : record) i k1 v1 k2 v2 :
  "id" <> k1 -> "id" <> k2 -> row !! "id" = None ->
  dict_display [KV "id" i; Unpack row; KV k1 v1; KV k2 v2] !! "id" = Some i.
Proof.
  intros H1 H2 Hrow. unfold dict_display. cbn [fold_left].
  rewrite !lookup_insert_ne by congruence.
  rewrite lookup_union_r by exact Hrow. apply lookup_insert_eq.
Qed.

Lemma stamped_lookup_present (row : record) i k1 v1 k2 v2 key :
  key = "id" \/ key = k1 \/ key = k2 \/ is_Some (row !! key) ->
  is_Some (dict_display [KV "id" i; Unpack row; KV k1 v1; KV k2 v2] !! key).
Proof.
  unfold dict_display. cbn [fold_left]. intros H.
  destruct (decide (k2 = key)) as [->|]; [rewrite lookup_insert_eq; eauto|].
  rewrite lookup_insert_ne by assumption.
  destruct (decide (k1 = key)) as [->|]; [rewrite lookup_insert_eq; eauto|].
  rewrite lookup_insert_ne by assumption.
  destruct (row !! key) as [v|] eqn:Hrow.
  - exists v. apply lookup_union_Some_l. exact Hrow.
  - rewrite lookup_union_r by exact Hrow.
    destruct H as [-> | [-> | [-> | [v Hv]]]]; try congruence.
    rewrite lookup_insert_eq. eauto.
Qed.

(** What a shim create returns in mock mode. *)
Lemma mock_create_returns k (row : record) w :
  exists i k1 v1 k2 v2 w',
    shim_create mock_service k row w
    = (Returned (Some (dict_display [KV "id" i; Unpack row; KV k1 v1; KV k2 v2])), w')
    /\ i = VStr (mock_prefix k ++ timestamp_str (clock w (ticks w)))
    /\ "id" <> k1 /\ "id" <> k2
    /\ (forall key, key ∉ mock_stamps k -> key <> k1 /\ key <> k2)
    /\ (forall key, key ∈ mock_stamps k -> key = k1 \/ key = k2).
Proof.
  destruct k; cbn [mock_stamps mock_prefix].
  - exists (VStr ("evt_mock_" ++ timestamp_str (clock w (ticks w)))),
      "created_at", (VStr (isoformat (clock w (S (ticks w))))),
      "updated_at", (VStr (isoformat (clock w (S (S (ticks w)))))).
    eexists. split; [reflexivity|]. split; [reflexivity|]. stamps_done.
  - exists (VStr ("reg_mock_" ++ timestamp_str (clock w (ticks w)))),
      "status", (VStr "pending_payment"),
      "created_at", (VStr (isoformat (clock w (S (ticks w))))).
    eexists. split; [reflexivity|]. split; [reflexivity|]. stamps_done.
  - exists (VStr ("pay_mock_" ++ timestamp_str (clock w (ticks w)))),
      "status", (VStr "succeeded"),
      "processed_at", (VStr (isoformat (clock w (S (ticks w))))).
    eexists. split; [reflexivity|]. split; [reflexivity|]. stamps_done.
  - exists (VStr ("tkt_mock_" ++ timestamp_str (clock w (ticks w)))),
      "status", (VStr "open"),
      "created_at", (VStr (isoformat (clock w (S (ticks w))))).
    eexists. split; [reflexivity|]. split; [reflexivity|]. stamps_done.
Qed.

Lemma mock_create_keeps_row k (row : record) w :
  exists created : record,
    fst (shim_create mock_service k row w) = Returned (Some created)
    /\ (forall key, is_Some (row !! key) -> is_Some (created !! key))
    /\ (forall key, key ∉ mock_stamps k -> is_Some (row !! key) ->
                    created !! key = row !! key)
    /\ (row !! "id" = None ->
        created !! "id"
        = Some (VStr (mock_prefix k ++ timestamp_str (clock w (ticks w)))))
    /\ Forall (fun key => is_Some (created !! key)) ("id" :: mock_stamps k).
Proof.
  destruct (mock_create_returns k row w)
    as (i & k1 & v1 & k2 & v2 & w' & -> & -> & Hid1 & Hid2 & Hout & Hin).
  eexists. split; [reflexivity|]. split; [|split; [|split]].
  - intros key Hkey. apply stamped_lookup_present. auto.
  - intros key Hkey Hrow. destruct (Hout key Hkey).
    apply stamped_lookup_other; assumption.
  - intros Hrow. apply stamped_lookup_id; assumption.
  - apply Forall_forall. intros key Hkey.
    apply stamped_lookup_present.
    apply elem_of_cons in Hkey as [-> | Hkey]; [auto|].
    destruct (Hin key Hkey); auto.
Qed.

(** What a create endpoint puts in the record it synthesizes. *)
Lemma create_endpoint_record cr authenticated w :
  exists (envelope created : record) w',
    handle_create cr authenticated w = (Returned envelope, w')
    /\ envelope !! "success" = Some (VBool true)
    /\ envelope !! record_key cr = Some (VDict created)
    /\ created !! "id"
       = Some (VStr (id_prefix cr ++ timestamp_str (clock w (ticks w))))
    /\ created !! stamp_key cr = Some (VStr (isoformat (clock w (S (ticks w)))))
    /\ Forall (fun kv => created !! kv.1 = Some kv.2) (copied cr).
Proof.
  destruct cr; do 3 eexists; (split; [reflexivity|]);
    (split; [reflexivity|]); (split; [reflexivity|]);
    (split; [reflexivity|]); (split; [reflexivity|]);
    repeat constructor.
Qed.

(** C1 (amended): a create request that carries the expected token in a
    bearer header (and, for a payment, a finite amount) is answered 200 with
    [success = true] and a synthesized record that carries an identifier
    generated from the clock, a timestamp, and the submitted fields its
    endpoint copies (not all of them); and in the shim's mock mode a create
    returns a record in which every submitted key is present, with the
    submitted value unless the mock stamps that key itself, next to an
    identifier and the stamps. *)
Theorem create_returns_success_envelope creds cr (w : world) :
  accepted creds w ->
  echoes_finite cr = true ->
  (exists (envelope created : record) w',
     app (create_route (Some creds) cr) w
     = ({| status := 200; headers := []; body := VDict envelope |}, w')
     /\ envelope !! "success" = Some (VBool true)
     /\ envelope !! record_key cr = Some (VDict created)
     /\ created !! "id"
        = Some (VStr (id_prefix cr ++ timestamp_str (clock w (ticks w))))
     /\ created !! stamp_key cr = Some (VStr (isoformat (clock w (S (ticks w)))))
     /\ Forall (fun kv => created !! kv.1 = Some kv.2) (copied cr))
  /\ (forall k (row : record),
      exists created : record,
        fst (shim_create mock_service k row w) = Returned (Some created)
        /\ (forall key, is_Some (row !! key) -> is_Some (created !! key))
        /\ (forall key, key ∉ mock_stamps k -> is_Some (row !! key) ->
                        created !! key = row !! key)
        /\ (row !! "id" = None ->
            created !! "id"
            = Some (VStr (mock_prefix k ++ timestamp_str (clock w (ticks w)))))
        /\ Forall (fun key => is_Some (created !! key)) ("id" :: mock_stamps k)).
Proof.
  intros Hok Hfinite. split.
  - destruct (app_create_accepts creds cr w Hok) as (envelope & w' & Hret & Happ).
    rewrite Hfinite in Happ.
    destruct (create_endpoint_record cr true w)
      as (envelope' & created & w'' & Hret' & Hrest).
    rewrite Hret in Hret'. injection Hret' as <- <-.
    exists envelope, created, w'. split; [exact Happ | exact Hrest].
  - intros k row. apply mock_create_keeps_row.
Qed.

(** C1 (amended) at a create-event request carrying the default token. *)
Lemma create_returns_success_envelope_witness :
  exists (envelope created : record) w',
    app (POST_api_events (Some good_token) event0) world_a
    = ({| status := 200; headers := []; body := VDict envelope |}, w')
    /\ envelope !! "success" = Some (VBool true)
    /\ envelope !! "event" = Some (VDict created)
    /\ created !! "id" = Some (VStr "evt_1750000000.25")
    /\ created !! "name" = Some (VStr "Bass Wars").
Proof.
  destruct (proj1 (create_returns_success_envelope good_token
                     (CreateEvent event0) world_a
                     (conj eq_refl eq_refl) eq_refl))
    as (envelope & created & w' & Happ & Hsuccess & Hkey & Hid & _ & Hcopied).
  exists envelope, created, w'. repeat split; try assumption.
  apply Forall_cons_1 in Hcopied as [Hname _]. exact Hname.
Defined.

(** ** Identifiers *)

(** C8: the identifier of a created record is the operation's fixed prefix
    followed by the timestamp string of the clock reading taken for it, at
    the endpoints and in the shim's mock responses (where the submitted row
    brings no identifier of its own); so two create calls of one operation
    that read the same clock value produce the same identifier, whatever
    they were asked to create. *)
Theorem same_clock_same_identifier :
  (forall cr1 cr2 a1 a2 (w1 w2 : world),
     kind_of cr1 = kind_of cr2 ->
     clock w1 (ticks w1) = clock w2 (ticks w2) ->
     created_id cr1 (fst (handle_create cr1 a1 w1))
     = Some (VStr (id_prefix cr1 ++ timestamp_str (clock w1 (ticks w1))))
     /\ created_id cr1 (fst (handle_create cr1 a1 w1))
        = created_id cr2 (fst (handle_create cr2 a2 w2)))
  /\ (forall k (row1 row2 : record) (w1 w2 : world),
        row1 !! "id" = None -> row2 !! "id" = None ->
        clock w1 (ticks w1) = clock w2 (ticks w2) ->
        returned_id (fst (shim_create mock_service k row1 w1))
        = Some (VStr (mock_prefix k ++ timestamp_str (clock w1 (ticks w1))))
        /\ returned_id (fst (shim_create mock_service k row1 w1))
           = returned_id (fst (shim_create mock_service k row2 w2))).
Proof.
  split.
  - intros cr1 cr2 a1 a2 w1 w2 Hkind Hclock.
    destruct (create_endpoint_record cr1 a1 w1)
      as (e1 & c1 & w1' & -> & _ & Hk1 & Hid1 & _).
    destruct (create_endpoint_record cr2 a2 w2)
      as (e2 & c2 & w2' & -> & _ & Hk2 & Hid2 & _).
    cbn [fst created_id]. rewrite Hk1, Hk2, Hid1, Hid2, Hclock.
    split; [reflexivity|].
    destruct cr1, cr2; try discriminate Hkind; reflexivity.
  - intros k row1 row2 w1 w2 Hrow1 Hrow2 Hclock.
    destruct (mock_create_keeps_row k row1 w1) as (c1 & -> & _ & _ & Hid1 & _).
    destruct (mock_create_keeps_row k row2 w2) as (c2 & -> & _ & _ & Hid2 & _).
    cbn [returned_id]. rewrite (Hid1 Hrow1), (Hid2 Hrow2), Hclock.
    split; reflexivity.
Qed.

(** C8 at two different events, and two different rows, created at the same
    clock reading. *)
Lemma same_clock_same_identifier_witness :
  (created_id (CreateEvent event0)
     (fst (handle_create (CreateEvent event0) true world_a))
   = Some (VStr "evt_1750000000.25")
   /\ created_id (CreateEvent event0)
        (fst (handle_create (CreateEvent event0) true world_a))
      = created_id (CreateEvent event1)
          (fst (handle_create (CreateEvent event1) true world_a)))
  /\ (returned_id (fst (shim_create mock_service Events row0 world_a))
      = Some (VStr "evt_mock_1750000000.25")
      /\ returned_id (fst (shim_create mock_service Events row0 world_a))
         = returned_id (fst (shim_create mock_service Events row1 world_a))).
Proof.
  split.
  - apply (proj1 same_clock_same_identifier
             (CreateEvent event0) (CreateEvent event1) true true world_a world_a);
      reflexivity.
  - apply (proj2 same_clock_same_identifier Events row0 row1 world_a world_a);
      reflexivity.
Defined.

(** ** Mock mode *)

(** C5, as worded, fails: in mock mode two invocations of create-event with
    the same row, made at different clock readings, return records with
    different identifiers. *)
Lemma mock_create_not_repeatable :
  ~ same_result_twice mock_service (Create_event row0) world_a world_b.
Proof.
  intros (v & Ha & Hb). rewrite <- Ha in Hb. clear Ha.
  vm_compute in Hb. discriminate Hb.
Qed.

(** The operations that leave a failed remote call to the caller. *)
Lemma remote_failure_propagates c op w :
  (forall q, exists e, execute c q = Raised e) ->
  (forall e s d, op <> Get_event_analytics e s d) ->
  exists e, fst (invoke {| SupabaseService.client := Some c |} op w) = Raised e.
Proof.
  intros Hdown Hop.
  destruct op; cbn [invoke];
    unfold SupabaseService.create_event, SupabaseService.get_events,
      SupabaseService.get_event_by_id, SupabaseService.create_registration,
      SupabaseService.get_registrations, SupabaseService.create_payment_record,
      SupabaseService.create_support_ticket, SupabaseService.run,
      try_except, bind, lift;
    cbn [SupabaseService.client];
    try (exfalso; eapply Hop; reflexivity);
    match goal with
    | |- context [execute c ?q] => destruct (Hdown q) as [e ->]
    end;
    exists e; reflexivity.
Qed.

Lemma mock_reads_fixed op w :
  readings op = 0%nat ->
  exists v, invoke mock_service op w = (Returned v, w)
            /\ well_shaped op v = true
            /\ forall w', invoke mock_service op w' = (Returned v, w').
Proof.
  destruct op; try discriminate; intros _; eexists;
    (split; [reflexivity|]); (split; [reflexivity|]);
    intros w'; reflexivity.
Qed.

(** With a client, a failed request surfaces as the very exception the
    store raised, after one error line in the log. *)
Lemma invoke_reraises c op q e w :
  request_of op = Some q ->
  execute c q = Raised e ->
  exists doing,
    invoke {| SupabaseService.client := Some c |} op w
    = (Raised e, logged ERROR [VStr doing; VStr (str e)] w).
Proof.
  intros Hq He.
  destruct op; cbn [request_of] in Hq; try discriminate Hq;
    injection Hq as <-; unfold_operation; rewrite He;
    eexists; reflexivity.
Qed.

(** C5 (amended): in mock mode every shim operation returns a value of the
    shape of a response, determined by its arguments and by the clock
    readings it takes: two invocations with the same arguments that read the
    same clock values return equal results, in whatever else their worlds
    differ.  The read operations take no reading, so their result is a
    fixed literal.  With a client, when the store fails the request of an
    operation other than the analytics aggregation, the operation raises
    that same exception instead of falling back. *)
Theorem mock_results_determined op (w1 w2 : world) :
  ((forall i, (i < readings op)%nat ->
              clock w1 (ticks w1 + i)%nat = clock w2 (ticks w2 + i)%nat) ->
   exists v, fst (invoke mock_service op w1) = Returned v
             /\ fst (invoke mock_service op w2) = Returned v
             /\ well_shaped op v = true)
  /\ (forall c q e,
        request_of op = Some q ->
        execute c q = Raised e ->
        fst (invoke {| SupabaseService.client := Some c |} op w1) = Raised e).
Proof.
  split.
  - intros Hclock.
    assert (H0 : clock w1 (ticks w1) = clock w2 (ticks w2)
                 \/ readings op = 0%nat).
    { destruct (readings op) eqn:Hr; [auto|]. left.
      specialize (Hclock 0%nat ltac:(lia)). rewrite !Nat.add_0_r in Hclock.
      exact Hclock. }
    assert (H1 : clock w1 (S (ticks w1)) = clock w2 (S (ticks w2))
                 \/ readings op = 0%nat).
    { destruct op; cbn [readings] in *; auto; left;
        specialize (Hclock 1%nat ltac:(lia)); rewrite !Nat.add_1_r in Hclock;
        exact Hclock. }
    assert (H2 : clock w1 (S (S (ticks w1))) = clock w2 (S (S (ticks w2)))
                 \/ readings op <> 3%nat).
    { destruct op; cbn [readings] in *; auto; left.
      specialize (Hclock 2%nat ltac:(lia)).
      replace (ticks w1 + 2)%nat with (S (S (ticks w1))) in Hclock by lia.
      replace (ticks w2 + 2)%nat with (S (S (ticks w2))) in Hclock by lia.
      exact Hclock. }
    destruct op; cbn [readings] in *;
      try (destruct H0 as [H0|]; [|discriminate]);
      try (destruct H1 as [H1|]; [|discriminate]);
      try (destruct H2 as [H2|]; [|congruence]);
      eexists; (split; [reflexivity|]);
      (split; [|reflexivity]);
      cbn; unfold bind, datetime_now, ret; cbn;
      rewrite <- ?H0, <- ?H1, <- ?H2; reflexivity.
  - intros c q e Hq He.
    destruct (invoke_reraises c op q e w1 Hq He) as [doing ->]. reflexivity.
Qed.

(** C5 (amended) at a mock create-event run in two worlds that differ in
    environment, log and readings taken but read the same three clock
    values, and at a create-event sent to a store that refuses every
    call. *)
Lemma mock_results_determined_witness :
  (exists v, fst (invoke mock_service (Create_event row0) world_a) = Returned v
             /\ fst (invoke mock_service (Create_event row0) world_later)
                = Returned v
             /\ well_shaped (Create_event row0) v = true)
  /\ fst (invoke {| SupabaseService.client := Some unreachable |}
            (Create_event row0) world_a)
     = Raised (Exception_ "connection refused").
Proof.
  destruct (mock_results_determined (Create_event row0) world_a world_later)
    as [Hmock Hdown].
  split.
  - apply Hmock. intros i Hi. cbn [readings] in Hi.
    destruct i as [|[|[|i]]]; [reflexivity | reflexivity | reflexivity | lia].
  - apply (Hdown unreachable (table_insert "events" row0)
             (Exception_ "connection refused")); reflexivity.
Defined.

(** ** Analytics aggregation *)

Lemma sum_of_nil k : sum_of k [] = Returned (VInt 0).
Proof. reflexivity. Qed.

(** Each sub-aggregation returns, whatever its sub-query does, the entry
    determined by that sub-query's outcome. *)
Lemma _get_registration_stats_entry c event_id start_date end_date w :
  exists w',
    SupabaseService._get_registration_stats
      {| SupabaseService.client := Some c |} event_id start_date end_date w
    = (Returned (registrations_entry
                   (execute c (registration_query event_id start_date end_date))),
       w').
Proof.
  unfold SupabaseService._get_registration_stats, try_except, bind,
    SupabaseService.run, lift, registration_query.
  cbn [SupabaseService.client]. cbv zeta.
  destruct (execute c _) as [e|response]; eexists; reflexivity.
Qed.

Lemma _get_revenue_stats_entry c event_id start_date end_date w :
  exists w',
    SupabaseService._get_revenue_stats
      {| SupabaseService.client := Some c |} event_id start_date end_date w
    = (Returned (revenue_entry
                   (execute c (revenue_query event_id start_date end_date))),
       w').
Proof.
  unfold SupabaseService._get_revenue_stats, try_except, bind,
    SupabaseService.run, lift, revenue_query.
  cbn [SupabaseService.client]. cbv zeta.
  destruct (execute c _) as [e|response]; [eexists; reflexivity|].
  cbn [revenue_entry].
  destruct (data response) as [|p rows] eqn:Hdata; [eexists; reflexivity|].
  destruct (sum_of "amount" (p :: rows)) as [e|total]; eexists; reflexivity.
Qed.

Lemma _get_attendance_stats_entry c event_id start_date end_date w :
  exists w',
    SupabaseService._get_attendance_stats
      {| SupabaseService.client := Some c |} event_id start_date end_date w
    = (Returned (attendance_entry
                   (execute c (attendance_query event_id start_date end_date))),
       w').
Proof.
  unfold SupabaseService._get_attendance_stats, try_except, bind,
    SupabaseService.run, lift, attendance_query.
  cbn [SupabaseService.client]. cbv zeta.
  destruct (execute c _) as [e|response]; eexists; reflexivity.
Qed.

Lemma where_if_table op column x q : q_table (where_if op column x q) = q_table q.
Proof. unfold where_if. destruct (truthy x); reflexivity. Qed.

(** The aggregation returns, in mock mode and with a client alike. *)
Lemma get_event_analytics_returns self event_id start_date end_date w :
  exists (analytics : record) w',
    SupabaseService.get_event_analytics self event_id start_date end_date w
    = (Returned analytics, w').
Proof.
  destruct self as [[c|]]; [|eexists; eexists; reflexivity].
  unfold SupabaseService.get_event_analytics, try_except, bind.
  cbn [SupabaseService.client].
  destruct (_get_registration_stats_entry c event_id start_date end_date w)
    as [w1 ->].
  destruct (_get_revenue_stats_entry c event_id start_date end_date w1)
    as [w2 ->].
  destruct (_get_attendance_stats_entry c event_id start_date end_date w2)
    as [w3 ->].
  eexists; eexists; reflexivity.
Qed.

(** C4: the analytics aggregation returns for every outcome of its three
    sub-queries; with a remote client the entry of each metric is determined
    by the outcome of that metric's own sub-query, and is the metric's
    zero-valued default when that sub-query fails; and every combination of
    three outcomes is one some store gives. *)
Theorem analytics_failures_stay_local c event_id start_date end_date (w : world) :
  (forall self, exists (analytics : record) w',
     SupabaseService.get_event_analytics self event_id start_date end_date w
     = (Returned analytics, w'))
  /\ (exists w',
     SupabaseService.get_event_analytics
       {| SupabaseService.client := Some c |} event_id start_date end_date w
     = (Returned (dict_display [
          KV "registrations"
            (VDict (registrations_entry
               (execute c (registration_query event_id start_date end_date))));
          KV "revenue"
            (VDict (revenue_entry
               (execute c (revenue_query event_id start_date end_date))));
          KV "attendance"
            (VDict (attendance_entry
               (execute c (attendance_query event_id start_date end_date))))]),
        w'))
  /\ (forall e, registrations_entry (Raised e) = zero_registrations
                /\ revenue_entry (Raised e) = zero_revenue
                /\ attendance_entry (Raised e) = zero_attendance)
  /\ (forall o1 o2 o3,
        execute (answering o1 o2 o3)
          (registration_query event_id start_date end_date) = o1
        /\ execute (answering o1 o2 o3)
             (revenue_query event_id start_date end_date) = o2
        /\ execute (answering o1 o2 o3)
             (attendance_query event_id start_date end_date) = o3).
Proof.
  split; [|split; [|split]].
  - intros self. apply get_event_analytics_returns.
  - unfold SupabaseService.get_event_analytics, try_except, bind.
    cbn [SupabaseService.client].
    destruct (_get_registration_stats_entry c event_id start_date end_date w)
      as [w1 ->].
    destruct (_get_revenue_stats_entry c event_id start_date end_date w1)
      as [w2 ->].
    destruct (_get_attendance_stats_entry c event_id start_date end_date w2)
      as [w3 ->].
    exists w3. reflexivity.
  - intros e. repeat split.
  - intros o1 o2 o3. unfold answering. cbn [execute].
    unfold registration_query, revenue_query, attendance_query.
    cbn [where_ q_table]. rewrite !where_if_table. repeat split.
Qed.

(** A run of the aggregation: the registrations sub-query fails, the revenue
    sub-query returns two payments, the attendance sub-query returns three
    check-ins by count. *)
Example analytics_one_failure :
  fst (SupabaseService.get_event_analytics
         {| SupabaseService.client := Some (answering
              (Raised (Exception_ "timeout"))
              (Returned {| data := [dict_display [KV "amount" (VInt 40)];
                                    dict_display [KV "amount" (VInt 25)]];
                           count := None |})
              (Returned {| data := []; count := Some (VInt 3) |})) |}
         (Some "evt_001") None None world_a)
  = Returned (dict_display [
      KV "registrations" (VDict zero_registrations);
      KV "revenue" (VDict (dict_display [
        KV "total" (VInt 65);
        KV "transaction_count" (VInt 2);
        KV "data" (VList [VDict (dict_display [KV "amount" (VInt 40)]);
                          VDict (dict_display [KV "amount" (VInt 25)])])]));
      KV "attendance" (VDict (dict_display [
        KV "total_checked_in" (VInt 3); KV "data" (VList [])]))]).
Proof. reflexivity. Qed.

(** A payment row without an amount makes the revenue sum fail; revenue
    falls back to its default and the other two metrics stand. *)
Example analytics_bad_row :
  fst (SupabaseService.get_event_analytics
         {| SupabaseService.client := Some (answering
              (Returned {| data := []; count := Some (VInt 7) |})
              (Returned {| data := [dict_display [KV "status" (VStr "succeeded")]];
                           count := None |})
              (Returned {| data := []; count := Some (VInt 3) |})) |}
         None None None world_a)
  = Returned (dict_display [
      KV "registrations" (VDict (dict_display [
        KV "total" (VInt 7); KV "data" (VList [])]));
      KV "revenue" (VDict zero_revenue);
      KV "attendance" (VDict (dict_display [
        KV "total_checked_in" (VInt 3); KV "data" (VList [])]))]).
Proof. reflexivity. Qed.

(** * Further properties of main.py *)

(** ** The token check *)

(** X1: [verify_token] accepts a request exactly when its token equals the
    value of MCP_API_TOKEN, or the built-in default token when the variable
    is not set; the scheme plays no part. *)
Theorem verify_token_accepts_exactly creds (w : world) :
  (forall t, environ w !! "MCP_API_TOKEN" = Some t ->
     (fst (Main.verify_token creds w) = Returned true <-> credentials creds = t))
  /\ (environ w !! "MCP_API_TOKEN" = None ->
      (fst (Main.verify_token creds w) = Returned true
       <-> credentials creds = "car-audio-events-mcp-token")).
Proof.
  assert (Hiff : fst (Main.verify_token creds w) = Returned true
                 <-> credentials creds = expected_token w).
  { destruct (String.eqb_spec (credentials creds) (expected_token w)) as [Heq|Hne].
    - rewrite (verify_token_accepts _ _ Heq). tauto.
    - rewrite (verify_token_rejects _ _ Hne). cbn [fst].
      split; [discriminate | contradiction]. }
  unfold expected_token in Hiff.
  split; [intros t Ht | intros Ht]; rewrite Ht in Hiff; exact Hiff.
Qed.

(** X1 at a server with its own token: the default token is refused, the
    configured one accepted. *)
Lemma verify_token_accepts_exactly_witness :
  fst (Main.verify_token good_token world_locked) <> Returned true
  /\ fst (Main.verify_token {| scheme := "Basic"; credentials := "s3cret" |}
            world_locked) = Returned true
  /\ fst (Main.verify_token good_token world_a) = Returned true.
Proof.
  split; [|split].
  - intros H.
    apply (proj1 (verify_token_accepts_exactly good_token world_locked)
             "s3cret" eq_refl) in H.
    discriminate H.
  - apply (proj1 (verify_token_accepts_exactly
                    {| scheme := "Basic"; credentials := "s3cret" |} world_locked)
             "s3cret" eq_refl).
    reflexivity.
  - apply (proj2 (verify_token_accepts_exactly good_token world_a) eq_refl).
    reflexivity.
Defined.

(** ** Listing *)

Lemma slice_to_prefix {A} (stop : Z) (l : list A) : slice_to stop l `prefix_of` l.
Proof.
  unfold slice_to. destruct (0 <=? stop)%Z.
  - exists (drop (Z.to_nat stop) l). symmetry. apply take_drop.
  - exists (drop (Z.to_nat (Z.of_nat (length l) + stop)) l).
    symmetry. apply take_drop.
Qed.

Lemma remaining_passes status event_type :
  Forall (fun e => passes "status" status e = true
                   /\ passes "type" event_type e = true)
    (remaining status event_type).
Proof.
  apply Forall_forall. intros e He. apply list_elem_of_In in He.
  unfold remaining in He.
  apply List.filter_In in He as [He Htype].
  apply List.filter_In in He as [_ Hstatus]. split; assumption.
Qed.

(** X2: the events a listing returns are a prefix of the sample events left
    by the filters, each of them passes both filters, and their number is
    the limit clipped to the count (a negative limit counting back from the
    end). *)
Theorem list_events_returns_filtered_prefix status event_type limit (w : world) :
  exists returned : list record,
    Main.list_events status event_type limit w
    = (Returned (dict_display [
         KV "success" (VBool true);
         KV "count" (VInt (Z.of_nat (length (remaining status event_type))));
         KV "events" (VList (VDict <$> returned))]), w)
    /\ returned `prefix_of` remaining status event_type
    /\ Forall (fun e => passes "status" status e = true
                        /\ passes "type" event_type e = true) returned
    /\ Z.of_nat (length returned)
       = Z.max 0 (Z.min (Z.of_nat (length (remaining status event_type)))
                    (if (0 <=? limit)%Z then limit
                     else Z.of_nat (length (remaining status event_type)) + limit)).
Proof.
  exists (slice_to limit (remaining status event_type)).
  split; [apply list_events_returns|].
  split; [apply slice_to_prefix|].
  split; [|apply slice_to_length].
  destruct (slice_to_prefix limit (remaining status event_type)) as [rest Hrest].
  pose proof (remaining_passes status event_type) as Hall.
  rewrite Hrest in Hall. apply Forall_app in Hall as [Hall _]. exact Hall.
Qed.

(** X3: an empty status or event-type filter is no filter: the response is
    that of the request without it. *)
Theorem empty_filter_is_no_filter status event_type limit (w : world) :
  app (GET_api_events (Some EmptyString) event_type limit) w
  = app (GET_api_events None event_type limit) w
  /\ app (GET_api_events status (Some EmptyString) limit) w
     = app (GET_api_events status None limit) w.
Proof.
  unfold app. cbn [dispatch]. rewrite !list_events_returns. split; reflexivity.
Qed.

(** X4: nothing a create endpoint does reaches the listing: after any
    create request the listing answers as it did before, and leaves the
    world as the create left it. *)
Theorem created_is_never_listed cr authenticated status event_type limit
    (w : world) :
  Main.list_events status event_type limit
    (snd (handle_create cr authenticated w))
  = (fst (Main.list_events status event_type limit w),
     snd (handle_create cr authenticated w)).
Proof. rewrite !list_events_returns. reflexivity. Qed.

(** ** Analytics endpoint *)

(** The metrics mapping, built key by key. *)
Lemma optional_insert_lookup (c : bool) key (v : value) (m : record) k :
  is_Some ((if c then <[key := v]> else id) m !! k)
  <-> (k = key /\ c = true) \/ is_Some (m !! k).
Proof.
  destruct c; unfold id.
  - rewrite lookup_insert_is_Some. split.
    + intros [<- | [_ H]]; auto.
    + intros [[-> _] | H]; [auto|].
      destruct (decide (key = k)); auto.
  - split; [auto|]. intros [[_ H] | H]; [discriminate H | exact H].
Qed.

Lemma three_keys_lookup (c1 c2 c3 : bool) (v1 v2 v3 : value) k :
  is_Some ((if c3 then <["attendance" := v3]> else id)
             ((if c2 then <["revenue" := v2]> else id)
                ((if c1 then <["registrations" := v1]> else id)
                   (∅ : record))) !! k)
  <-> (k = "registrations" /\ c1 = true) \/ (k = "revenue" /\ c2 = true)
      \/ (k = "attendance" /\ c3 = true).
Proof.
  rewrite !optional_insert_lookup, lookup_empty.
  split.
  - intros [H | [H | [H | H]]]; auto. destruct H as [x Hx]. discriminate Hx.
  - intros [H | [H | H]]; auto.
Qed.

Lemma get_analytics_metrics request authenticated w :
  analytics_part "metrics" (fst (Main.get_analytics request authenticated w))
  = Some (VDict
      ((if contains (EventAnalytics.metrics request) "attendance"
        then <["attendance" := VDict (dict_display [
                 KV "total_attendees" (VInt 450);
                 KV "average_per_event" (VInt 90);
                 KV "retention_rate" (VStr "78%")])]>
        else id)
         ((if contains (EventAnalytics.metrics request) "revenue"
           then <["revenue" := VDict (dict_display [
                    KV "total" (VFloat (binary64 15600));
                    KV "average_per_event" (VFloat (binary64 3120));
                    KV "by_payment_method" (VDict (dict_display [
                      KV "stripe" (VFloat (binary64 12000));
                      KV "paypal" (VFloat (binary64 3600))]))])]>
           else id)
            ((if contains (EventAnalytics.metrics request) "registrations"
              then <["registrations" := VDict (dict_display [
                       KV "total" (VInt 156);
                       KV "growth" (VStr "+12%");
                       KV "by_class" (VDict (dict_display [
                         KV "SPL" (VInt 89); KV "SQ" (VInt 45);
                         KV "Show" (VInt 22)]))])]>
              else id) ∅)))).
Proof.
  unfold Main.get_analytics, try_except, bind, logger_info, emit.
  destruct (truthy (EventAnalytics.end_date request));
    destruct (contains (EventAnalytics.metrics request) "registrations");
    destruct (contains (EventAnalytics.metrics request) "revenue");
    destruct (contains (EventAnalytics.metrics request) "attendance");
    reflexivity.
Qed.

(** X5: the metrics mapping of an analytics response has a key exactly for
    each requested name among registrations, revenue and attendance; names
    it does not know are ignored, and an empty request gives an empty
    mapping. *)
Theorem analytics_keys_are_requested_known request authenticated (w : world) :
  exists metrics : record,
    analytics_part "metrics" (fst (Main.get_analytics request authenticated w))
    = Some (VDict metrics)
    /\ forall k, is_Some (metrics !! k)
                 <-> contains (EventAnalytics.metrics request) k = true
                     /\ known_metric k.
Proof.
  eexists. split; [apply get_analytics_metrics|].
  intros k. rewrite three_keys_lookup. unfold known_metric.
  split.
  - intros [[-> H] | [[-> H] | [-> H]]]; auto.
  - intros [H [-> | [-> | ->]]]; auto.
Qed.

(** X6: the figures of an analytics response depend on the requested metric
    names alone: not on the event, not on the dates, not on the world. *)
Theorem analytics_figures_fixed r1 r2 a1 a2 (w1 w2 : world) :
  EventAnalytics.metrics r1 = EventAnalytics.metrics r2 ->
  analytics_part "metrics" (fst (Main.get_analytics r1 a1 w1))
  = analytics_part "metrics" (fst (Main.get_analytics r2 a2 w2)).
Proof.
  intros Hm. rewrite !get_analytics_metrics, Hm. reflexivity.
Qed.

(** X6 at two requests for revenue, about different events and years. *)
Lemma analytics_figures_fixed_witness :
  analytics_part "metrics"
    (fst (Main.get_analytics
            {| EventAnalytics.event_id := Some "evt_001";
               EventAnalytics.start_date := Some "2024-01-01";
               EventAnalytics.end_date := Some "2024-12-31";
               EventAnalytics.metrics := ["revenue"] |} true world_a))
  = analytics_part "metrics"
      (fst (Main.get_analytics
              {| EventAnalytics.event_id := Some "evt_002";
                 EventAnalytics.start_date := None;
                 EventAnalytics.end_date := None;
                 EventAnalytics.metrics := ["revenue"] |} true world_b)).
Proof.
  apply analytics_figures_fixed. reflexivity.
Defined.

(** X7: the period of an analytics response starts at the requested start
    date, or at 2025-01-01 when none (or an empty one) is given, and ends at
    the requested end date, or at the clock's current date when none is
    given; the clock is read in that case only. *)
Theorem analytics_period_defaults request authenticated (w : world) :
  exists period : record,
    analytics_part "period" (fst (Main.get_analytics request authenticated w))
    = Some (VDict period)
    /\ period !! "start"
       = Some (VStr (if truthy (EventAnalytics.start_date request)
                     then unwrap (EventAnalytics.start_date request)
                     else "2025-01-01"))
    /\ period !! "end"
       = Some (VStr (if truthy (EventAnalytics.end_date request)
                     then unwrap (EventAnalytics.end_date request)
                     else strftime_Ymd (clock w (ticks w))))
    /\ ticks (snd (Main.get_analytics request authenticated w))
       = (if truthy (EventAnalytics.end_date request) then ticks w
          else S (ticks w)).
Proof.
  unfold Main.get_analytics, try_except, bind, logger_info, emit.
  destruct (truthy (EventAnalytics.end_date request));
    destruct (contains (EventAnalytics.metrics request) "registrations");
    destruct (contains (EventAnalytics.metrics request) "revenue");
    destruct (contains (EventAnalytics.metrics request) "attendance");
    eexists; (split; [reflexivity|]); (split; [reflexivity|]);
    (split; reflexivity).
Qed.

(** ** Create endpoints *)

(** X8: the record a create endpoint synthesizes has a fixed status whatever
    was submitted: an event is a draft, a registration is pending payment, a
    ticket is open, and a payment has succeeded, for every amount, currency
    and method. *)
Theorem created_status_is_fixed cr authenticated (w : world) :
  created_field cr "status" (fst (handle_create cr authenticated w))
  = Some (VStr (initial_status cr)).
Proof. destruct cr; reflexivity. Qed.

(** A create endpoint takes two clock readings and touches nothing else of
    the clock or the environment. *)
Lemma create_endpoint_world cr authenticated w :
  clock (snd (handle_create cr authenticated w)) = clock w
  /\ ticks (snd (handle_create cr authenticated w)) = S (S (ticks w))
  /\ environ (snd (handle_create cr authenticated w)) = environ w.
Proof. destruct cr; repeat split. Qed.

Lemma id_prefix_cancel cr1 cr2 (x y : string) :
  kind_of cr1 = kind_of cr2 ->
  (Some (VStr (id_prefix cr1 ++ x)) = Some (VStr (id_prefix cr2 ++ y)) <-> x = y).
Proof.
  intros Hkind.
  destruct cr1, cr2; try discriminate Hkind; cbn [id_prefix];
    (split; [intros H; injection H as H; exact H | intros ->; reflexivity]).
Qed.

(** X9: of two create requests of one operation served one after the other,
    the second takes its identifier from the third clock reading; the two
    records get the same identifier exactly when the clock renders the same
    timestamp at the first and the third reading. *)
Theorem consecutive_creates_collide cr1 cr2 a1 a2 (w : world) :
  kind_of cr1 = kind_of cr2 ->
  created_id cr2 (fst (handle_create cr2 a2 (snd (handle_create cr1 a1 w))))
  = Some (VStr (id_prefix cr2 ++ timestamp_str (clock w (S (S (ticks w))))))
  /\ (created_id cr1 (fst (handle_create cr1 a1 w))
      = created_id cr2 (fst (handle_create cr2 a2 (snd (handle_create cr1 a1 w))))
      <-> timestamp_str (clock w (ticks w))
          = timestamp_str (clock w (S (S (ticks w))))).
Proof.
  intros Hkind.
  destruct (create_endpoint_world cr1 a1 w) as (Hclock & Hticks & _).
  destruct (create_endpoint_record cr2 a2 (snd (handle_create cr1 a1 w)))
    as (e2 & c2 & w2 & Hret2 & _ & Hk2 & Hid2 & _).
  rewrite Hclock, Hticks in Hid2.
  assert (H2 : created_id cr2
                 (fst (handle_create cr2 a2 (snd (handle_create cr1 a1 w))))
               = Some (VStr (id_prefix cr2
                               ++ timestamp_str (clock w (S (S (ticks w))))))).
  { rewrite Hret2. cbn [fst created_id]. rewrite Hk2. exact Hid2. }
  split; [exact H2|]. rewrite H2.
  destruct (create_endpoint_record cr1 a1 w)
    as (e1 & c1 & w1 & Hret1 & _ & Hk1 & Hid1 & _).
  rewrite Hret1. cbn [fst created_id]. rewrite Hk1, Hid1.
  apply id_prefix_cancel, Hkind.
Qed.

(** X9 at a clock that alternates between two readings: the two events,
    created back to back, get the same identifier. *)
Lemma consecutive_creates_collide_witness :
  created_id (CreateEvent event0)
    (fst (handle_create (CreateEvent event0) true world_ticking))
  = created_id (CreateEvent event1)
      (fst (handle_create (CreateEvent event1) true
              (snd (handle_create (CreateEvent event0) true world_ticking)))).
Proof.
  apply (proj2 (consecutive_creates_collide (CreateEvent event0)
                  (CreateEvent event1) true true world_ticking eq_refl)).
  reflexivity.
Defined.

(** * Further properties of the data-access shim *)

(** ** Start-up *)

(** X10: the service starts in mock mode, with a warning, when either
    credential is missing from the environment or empty; when both are
    there it asks the library for a client made from them, and holds that
    client; when the library raises instead, start-up raises that exception,
    logs nothing and leaves no service. *)
Theorem init_selects_mode create_client (w : world) :
  (truthy (environ w !! "VITE_SUPABASE_URL") = false
   \/ truthy (environ w !! "SUPABASE_SERVICE_ROLE_KEY") = false ->
   SupabaseService.__init__ create_client w
   = (Returned mock_service,
      logged WARNING
        [VStr "Supabase credentials not found. Running in mock mode."] w))
  /\ (truthy (environ w !! "VITE_SUPABASE_URL") = true ->
      truthy (environ w !! "SUPABASE_SERVICE_ROLE_KEY") = true ->
      (forall c,
         create_client (unwrap (environ w !! "VITE_SUPABASE_URL"))
           (unwrap (environ w !! "SUPABASE_SERVICE_ROLE_KEY")) = Returned c ->
         SupabaseService.__init__ create_client w
         = (Returned {| SupabaseService.client := Some c |},
            logged INFO [VStr "Supabase client initialized successfully"] w))
      /\ (forall e,
            create_client (unwrap (environ w !! "VITE_SUPABASE_URL"))
              (unwrap (environ w !! "SUPABASE_SERVICE_ROLE_KEY")) = Raised e ->
            SupabaseService.__init__ create_client w = (Raised e, w))).
Proof.
  unfold SupabaseService.__init__, bind, getenv, lift. split.
  - intros [-> | ->]; [reflexivity|]. rewrite orb_true_r. reflexivity.
  - intros -> ->. cbn [negb orb]. split; intros ? ->; reflexivity.
Qed.

(** X10 at an environment with an empty key, at one with both credentials,
    and at a library that refuses the URL. *)
Lemma init_selects_mode_witness :
  fst (SupabaseService.__init__ (fun _ _ => Returned unreachable) world_no_key)
  = Returned mock_service
  /\ fst (SupabaseService.__init__ (fun _ _ => Returned unreachable) world_live)
     = Returned {| SupabaseService.client := Some unreachable |}
  /\ SupabaseService.__init__ (fun _ _ => Raised (Exception_ "Invalid URL"))
       world_live
     = (Raised (Exception_ "Invalid URL"), world_live).
Proof.
  split; [|split].
  - rewrite (proj1 (init_selects_mode (fun _ _ => Returned unreachable)
                      world_no_key) (or_intror eq_refl)).
    reflexivity.
  - rewrite (proj1 (proj2 (init_selects_mode (fun _ _ => Returned unreachable)
                             world_live) eq_refl eq_refl) unreachable eq_refl).
    reflexivity.
  - apply (proj2 (proj2 (init_selects_mode
                           (fun _ _ => Raised (Exception_ "Invalid URL"))
                           world_live) eq_refl eq_refl)
             (Exception_ "Invalid URL") eq_refl).
Defined.

(** ** Mock mode *)

(** X11: in mock mode the listings ignore their arguments: there are two
    published events that get-events returns for every status, type and
    limit (also limit 0 or 1), and one confirmed registration for evt_001
    that get-registrations returns whatever is asked for. *)
Theorem mock_listings_ignore_arguments :
  exists (rows : list record) (row : record),
    (forall status event_type limit (w : world),
       SupabaseService.get_events mock_service status event_type limit w
       = (Returned rows, w))
    /\ length rows = 2%nat
    /\ Forall (fun r : record => r !! "status" = Some (VStr "published")) rows
    /\ (forall event_id user_id status (w : world),
          SupabaseService.get_registrations mock_service event_id user_id
            status w = (Returned [row], w))
    /\ row !! "event_id" = Some (VStr "evt_001")
    /\ row !! "status" = Some (VStr "confirmed").
Proof.
  do 2 eexists. split; [intros; reflexivity|].
  split; [reflexivity|]. split; [repeat constructor|].
  split; [intros; reflexivity|]. split; reflexivity.
Qed.

Lemma stamped_lookup_unstamped (row : record) i k1 v1 k2 v2 key :
  key <> "id" -> key <> k1 -> key <> k2 ->
  dict_display [KV "id" i; Unpack row; KV k1 v1; KV k2 v2] !! key = row !! key.
Proof.
  intros H0 H1 H2. unfold dict_display. cbn [fold_left].
  rewrite !lookup_insert_ne by congruence.
  destruct (row !! key) as [v|] eqn:Hrow.
  - apply lookup_union_Some_l. exact Hrow.
  - rewrite lookup_union_r by exact Hrow.
    rewrite lookup_insert_ne by congruence. apply lookup_empty.
Qed.

Lemma stamped_lookup_first (row : record) i k1 v1 k2 v2 :
  k1 <> k2 ->
  dict_display [KV "id" i; Unpack row; KV k1 v1; KV k2 v2] !! k1 = Some v1.
Proof.
  intros H. unfold dict_display. cbn [fold_left].
  rewrite lookup_insert_ne by congruence. apply lookup_insert_eq.
Qed.

(** X12: an identifier submitted in the row replaces the generated one in
    the record a mock create returns. *)
Theorem mock_create_submitted_id_wins k (row : record) v (w : world) :
  row !! "id" = Some v ->
  returned_id (fst (shim_create mock_service k row w)) = Some v.
Proof.
  intros Hrow.
  destruct (mock_create_returns k row w)
    as (i & k1 & v1 & k2 & v2 & w' & -> & _ & Hid1 & Hid2 & _).
  cbn [fst returned_id]. rewrite <- Hrow.
  apply stamped_lookup_other; [assumption | assumption |].
  rewrite Hrow. eauto.
Qed.

(** X12 at a row that brings its own identifier. *)
Lemma mock_create_submitted_id_wins_witness :
  returned_id (fst (shim_create mock_service Events
                      (dict_display [KV "id" (VInt 7); KV "name" (VStr "Bass Wars")])
                      world_a))
  = Some (VInt 7).
Proof.
  apply mock_create_submitted_id_wins. reflexivity.
Defined.

(** X13: a mock registration, payment or ticket comes back with the status
    the mock stamps, whatever status the row carried; a mock event keeps the
    status of its row, and has none when the row has none. *)
Theorem mock_create_status k (row : record) (w : world) :
  returned_field "status" (fst (shim_create mock_service k row w))
  = match mock_status k with
    | Some s => Some (VStr s)
    | None => row !! "status"
    end.
Proof.
  destruct k; cbn [mock_status shim_create];
    unfold SupabaseService.create_event, SupabaseService.create_registration,
      SupabaseService.create_payment_record,
      SupabaseService.create_support_ticket,
      SupabaseService._mock_event_response,
      SupabaseService._mock_registration_response,
      SupabaseService._mock_payment_response,
      SupabaseService._mock_ticket_response,
      bind, datetime_now, ret;
    cbn [SupabaseService.client mock_service fst returned_field].
  - apply stamped_lookup_unstamped; discriminate.
  - apply stamped_lookup_first; discriminate.
  - apply stamped_lookup_first; discriminate.
  - apply stamped_lookup_first; discriminate.
Qed.

(** X14: in mock mode what was created cannot be read back: get-event-by-id
    on the identifier a mock create-event returned gives a record with that
    identifier but the fixed name, location and status of the mock, whatever
    the created row held. *)
Theorem mock_create_then_get (row : record) (w : world) :
  row !! "id" = None ->
  exists (i : string) (created found : record) w',
    SupabaseService.create_event mock_service row w = (Returned (Some created), w')
    /\ created !! "id" = Some (VStr i)
    /\ SupabaseService.get_event_by_id mock_service i w'
       = (Returned (Some found), w')
    /\ found !! "id" = Some (VStr i)
    /\ found !! "name" = Some (VStr "Mock Event")
    /\ found !! "location" = Some (VStr "Mock City, ST")
    /\ found !! "status" = Some (VStr "published").
Proof.
  intros Hrow.
  exists ("evt_mock_" ++ timestamp_str (clock w (ticks w))).
  do 3 eexists. split; [reflexivity|].
  split; [apply stamped_lookup_id; [discriminate | discriminate | exact Hrow]|].
  split; [reflexivity|]. repeat split.
Qed.

(** X14 at a row named after a real event. *)
Lemma mock_create_then_get_witness :
  exists (i : string) (created found : record) w',
    SupabaseService.create_event mock_service row0 world_a
    = (Returned (Some created), w')
    /\ created !! "id" = Some (VStr i)
    /\ SupabaseService.get_event_by_id mock_service i w'
       = (Returned (Some found), w')
    /\ found !! "id" = Some (VStr i)
    /\ found !! "name" = Some (VStr "Mock Event")
    /\ found !! "location" = Some (VStr "Mock City, ST")
    /\ found !! "status" = Some (VStr "published").
Proof.
  apply (mock_create_then_get row0 world_a). reflexivity.
Defined.

(** ** With a client *)





(** ** Revenue *)

Lemma sum_of_from (k : string) (rows : list record) (amounts : list Z) (a : Z) :
  Forall2 (fun (p : record) n => p !! k = Some (VInt n)) rows amounts ->
  fold_left (fun acc p =>
               match acc with
               | Raised e => Raised e
               | Returned a =>
                   match getitem p k with
                   | Raised e => Raised e
                   | Returned v => add_number a v
                   end
               end) rows (Returned (VInt a))
  = Returned (VInt (a + foldr Z.add 0 amounts)).
Proof.
  intros H. revert a.
  induction H as [|p n rows amounts Hp _ IH]; intros a; cbn [fold_left foldr].
  - rewrite Z.add_0_r. reflexivity.
  - unfold getitem at 2. rewrite Hp. cbn [add_number].
    rewrite IH. f_equal. f_equal. lia.
Qed.

Lemma sum_of_integers (k : string) (rows : list record) (amounts : list Z) :
  Forall2 (fun (p : record) n => p !! k = Some (VInt n)) rows amounts ->
  sum_of k rows = Returned (VInt (foldr Z.add 0 amounts)).
Proof.
  intros H. unfold sum_of. rewrite (sum_of_from k rows amounts 0 H).
  reflexivity.
Qed.

Lemma sum_of_stays_raised (k : string) (rows : list record) e :
  fold_left (fun acc p =>
               match acc with
               | Raised e => Raised e
               | Returned a =>
                   match getitem p k with
                   | Raised e => Raised e
                   | Returned v => add_number a v
                   end
               end) rows (Raised e)
  = Raised e.
Proof. induction rows as [|p rows IH]; [reflexivity | exact IH]. Qed.

Lemma add_number_null a : exists e, add_number a VNone = Raised e.
Proof. destruct a; eexists; reflexivity. Qed.

Lemma sum_of_bad_row (k : string) (rows : list record) (p : record) acc :
  p ∈ rows ->
  p !! k = None \/ p !! k = Some VNone ->
  exists e,
    fold_left (fun acc p =>
                 match acc with
                 | Raised e => Raised e
                 | Returned a =>
                     match getitem p k with
                     | Raised e => Raised e
                     | Returned v => add_number a v
                     end
                 end) rows acc
    = Raised e.
Proof.
  intros Hin Hbad. revert acc.
  induction Hin as [p rows | p p' rows _ IH]; intros acc; cbn [fold_left].
  - destruct acc as [e|a]; [exists e; apply sum_of_stays_raised|].
    unfold getitem at 2. destruct Hbad as [-> | ->].
    + eexists. apply sum_of_stays_raised.
    + destruct (add_number_null a) as [e ->].
      exists e. apply sum_of_stays_raised.
  - apply IH. exact Hbad.
Qed.

(** X17: when the store answers the revenue sub-query with payments whose
    amounts are integers, the revenue entry totals them and counts them. *)
Theorem revenue_totals_integer_amounts c event_id start_date end_date
    response amounts (w : world) :
  execute c (revenue_query event_id start_date end_date) = Returned response ->
  Forall2 (fun (p : record) n => p !! "amount" = Some (VInt n))
    (data response) amounts ->
  fst (SupabaseService._get_revenue_stats
         {| SupabaseService.client := Some c |} event_id start_date end_date w)
  = Returned (dict_display [
      KV "total" (VInt (foldr Z.add 0 amounts));
      KV "transaction_count" (VInt (Z.of_nat (length amounts)));
      KV "data" (VList (VDict <$> data response))]).
Proof.
  intros Hr Hrows.
  destruct (_get_revenue_stats_entry c event_id start_date end_date w)
    as [w' ->].
  cbn [fst]. rewrite Hr. cbn [revenue_entry].
  rewrite (sum_of_integers _ _ _ Hrows).
  rewrite (Forall2_length _ _ _ Hrows). reflexivity.
Qed.

(** X17 at a store answering with payments of 40 and 25. *)
Lemma revenue_totals_integer_amounts_witness :
  fst (SupabaseService._get_revenue_stats
         {| SupabaseService.client :=
              Some {| execute := fun _ => Returned two_payments |} |}
         None None None world_a)
  = Returned (dict_display [
      KV "total" (VInt 65);
      KV "transaction_count" (VInt 2);
      KV "data" (VList (VDict <$> data two_payments))]).
Proof.
  apply (revenue_totals_integer_amounts
           {| execute := fun _ => Returned two_payments |} None None None
           two_payments [40; 25] world_a).
  - reflexivity.
  - repeat constructor.
Defined.

(** X18: when one payment of the answer has no amount, or a null one, the
    whole revenue entry is the zero default: the total and the count of the
    other payments are lost with it. *)
Theorem revenue_lost_on_bad_row c event_id start_date end_date response
    (p : record) (w : world) :
  execute c (revenue_query event_id start_date end_date) = Returned response ->
  p ∈ data response ->
  p !! "amount" = None \/ p !! "amount" = Some VNone ->
  fst (SupabaseService._get_revenue_stats
         {| SupabaseService.client := Some c |} event_id start_date end_date w)
  = Returned zero_revenue.
Proof.
  intros Hr Hin Hbad.
  destruct (_get_revenue_stats_entry c event_id start_date end_date w)
    as [w' ->].
  cbn [fst]. rewrite Hr. cbn [revenue_entry].
  destruct (sum_of_bad_row "amount" (data response) p (Returned (VInt 0))
              Hin Hbad) as [e He].
  unfold sum_of. rewrite He. reflexivity.
Qed.

(** X18 at a store answering with one good payment and one without an
    amount. *)
Lemma revenue_lost_on_bad_row_witness :
  fst (SupabaseService._get_revenue_stats
         {| SupabaseService.client :=
              Some {| execute := fun _ => Returned one_bad_payment |} |}
         None None None world_a)
  = Returned zero_revenue.
Proof.
  apply (revenue_lost_on_bad_row
           {| execute := fun _ => Returned one_bad_payment |} None None None
           one_bad_payment (dict_display [KV "status" (VStr "succeeded")])
           world_a).
  - reflexivity.
  - right. left.
  - left. reflexivity.
Defined.

Lemma where_if_action op column x q :
  q_action (where_if op column x q) = q_action q.
Proof. unfold where_if. destruct (truthy x); reflexivity. Qed.

Lemma registration_query_asks_count event_id start_date end_date :
  asks_count (registration_query event_id start_date end_date) = true.
Proof.
  unfold asks_count, registration_query. rewrite !where_if_action. reflexivity.
Qed.

Lemma attendance_query_asks_count event_id start_date end_date :
  asks_count (attendance_query event_id start_date end_date) = true.
Proof.
  unfold asks_count, attendance_query. rewrite !where_if_action. reflexivity.
Qed.

(** X19: a store that fails every sub-query and a store that holds no rows
    (it answers every sub-query with no data, and with a count of 0 where a
    count is asked for) give the same analytics: the aggregation does not
    tell an unreachable store from an empty one. *)
Theorem unreachable_looks_empty c_down c_empty event_id start_date end_date
    (w1 w2 : world) :
  (forall q, exists e, execute c_down q = Raised e) ->
  (forall q, exists response,
     execute c_empty q = Returned response /\ no_rows q response) ->
  fst (SupabaseService.get_event_analytics
         {| SupabaseService.client := Some c_down |}
         event_id start_date end_date w1)
  = fst (SupabaseService.get_event_analytics
           {| SupabaseService.client := Some c_empty |}
           event_id start_date end_date w2).
Proof.
  intros Hdown Hempty.
  unfold SupabaseService.get_event_analytics, try_except, bind.
  cbn [SupabaseService.client].
  destruct (_get_registration_stats_entry c_down event_id start_date end_date w1)
    as [u1 ->].
  destruct (_get_revenue_stats_entry c_down event_id start_date end_date u1)
    as [u2 ->].
  destruct (_get_attendance_stats_entry c_down event_id start_date end_date u2)
    as [u3 ->].
  destruct (_get_registration_stats_entry c_empty event_id start_date end_date w2)
    as [v1 ->].
  destruct (_get_revenue_stats_entry c_empty event_id start_date end_date v1)
    as [v2 ->].
  destruct (_get_attendance_stats_entry c_empty event_id start_date end_date v2)
    as [v3 ->].
  destruct (Hdown (registration_query event_id start_date end_date)) as [e1 ->].
  destruct (Hdown (revenue_query event_id start_date end_date)) as [e2 ->].
  destruct (Hdown (attendance_query event_id start_date end_date)) as [e3 ->].
  destruct (Hempty (registration_query event_id start_date end_date))
    as (r1 & -> & Hdata1 & Hcount1).
  destruct (Hempty (revenue_query event_id start_date end_date))
    as (r2 & -> & Hdata2 & _).
  destruct (Hempty (attendance_query event_id start_date end_date))
    as (r3 & -> & Hdata3 & Hcount3).
  specialize (Hcount1 (registration_query_asks_count _ _ _)).
  specialize (Hcount3 (attendance_query_asks_count _ _ _)).
  cbn [registrations_entry revenue_entry attendance_entry ret fst].
  unfold counted. rewrite Hdata1, Hdata2, Hdata3, Hcount1, Hcount3.
  reflexivity.
Qed.

(** X19 at the store that refuses every call and the store without rows. *)
Lemma unreachable_looks_empty_witness :
  fst (SupabaseService.get_event_analytics
         {| SupabaseService.client := Some unreachable |}
         (Some "evt_001") None None world_a)
  = fst (SupabaseService.get_event_analytics
           {| SupabaseService.client := Some empty_store |}
           (Some "evt_001") None None world_b).
Proof.
  apply unreachable_looks_empty.
  - intros q. exists (Exception_ "connection refused"). reflexivity.
  - intros q. eexists. split; [reflexivity|]. split; [reflexivity|].
    cbn [count]. intros ->. reflexivity.
Defined.

(** * Properties of the agent wrapper *)

(** ** Construction *)

(** X20: an LLM provider other than exactly "openai" or "anthropic" is
    refused with a ValueError naming it, once the environment file has been
    loaded: no LLM, client or runtime is built and nothing is logged. *)
Theorem unsupported_provider_is_refused lib llm_provider model config_file
    max_steps use_server_manager (w : world) loaded w0 :
  load_dotenv lib w = (Returned loaded, w0) ->
  llm_provider <> "openai" ->
  llm_provider <> "anthropic" ->
  CarAudioEventsAgent.__init__ lib llm_provider model config_file max_steps
    use_server_manager w
  = (Raised (ValueError ("Unsupported LLM provider: " ++ llm_provider)), w0).
Proof.
  intros Hload H1 H2. unfold CarAudioEventsAgent.__init__, bind.
  apply String.eqb_neq in H1, H2. rewrite Hload, H1, H2. reflexivity.
Qed.

(** X20 at a provider name in the wrong case. *)
Lemma unsupported_provider_is_refused_witness :
  CarAudioEventsAgent.__init__ recording "OpenAI" None None 30 true world_a
  = (Raised (ValueError "Unsupported LLM provider: OpenAI"), world_a).
Proof.
  apply (unsupported_provider_is_refused recording "OpenAI" None None 30 true
           world_a true world_a); [reflexivity | discriminate | discriminate].
Defined.

(** X21: leaving out the model, or giving an empty one, is the same as
    asking for gpt-4o from openai and for claude-3-5-sonnet-20240620 from
    anthropic; leaving out the configuration file, or giving an empty path,
    is the same as giving none, whatever the libraries do. *)
Theorem agent_defaults lib llm_provider model config_file max_steps
    use_server_manager (w : world) :
  (truthy model = false ->
   CarAudioEventsAgent.__init__ lib "openai" model config_file max_steps
     use_server_manager w
   = CarAudioEventsAgent.__init__ lib "openai" (Some "gpt-4o") config_file
       max_steps use_server_manager w)
  /\ (truthy model = false ->
      CarAudioEventsAgent.__init__ lib "anthropic" model config_file max_steps
        use_server_manager w
      = CarAudioEventsAgent.__init__ lib "anthropic"
          (Some "claude-3-5-sonnet-20240620") config_file max_steps
          use_server_manager w)
  /\ (truthy config_file = false ->
      CarAudioEventsAgent.__init__ lib llm_provider model config_file max_steps
        use_server_manager w
      = CarAudioEventsAgent.__init__ lib llm_provider model None max_steps
          use_server_manager w).
Proof.
  unfold CarAudioEventsAgent.__init__.
  split; [|split]; intros H.
  - cbn [String.eqb Ascii.eqb Bool.eqb]. rewrite H. reflexivity.
  - cbn [String.eqb Ascii.eqb Bool.eqb]. rewrite H. reflexivity.
  - rewrite H. reflexivity.
Qed.

(** X21 at an empty model name and an empty configuration path. *)
Lemma agent_defaults_witness :
  CarAudioEventsAgent.__init__ recording "openai" (Some EmptyString)
    (Some EmptyString) 30 true world_a
  = CarAudioEventsAgent.__init__ recording "openai" (Some "gpt-4o") None 30 true
      world_a.
Proof.
  rewrite (proj1 (agent_defaults recording "openai" (Some EmptyString)
                    (Some EmptyString) 30 true world_a) eq_refl).
  apply (proj2 (proj2 (agent_defaults recording "openai" (Some "gpt-4o")
                         (Some EmptyString) 30 true world_a)) eq_refl).
Defined.

(** X22: the event-management agent and the analytics agent are one and the
    same: built by the same library calls with the same arguments, whatever
    the libraries do. *)
Theorem event_and_analytics_agents_coincide lib (w : world) :
  CarAudioEventsAgent.create_event_agent lib w
  = CarAudioEventsAgent.create_analytics_agent lib w.
Proof. reflexivity. Qed.

(** X23: construction stops at the first library call that fails, with that
    call's exception and the world as that call left it: loading the
    environment file, building the LLM of either provider, reading the
    configuration, or building the agent runtime; a later call is not made
    and the agent is not reported as initialized. *)
Theorem failed_construction_stops lib llm_provider model config_file max_steps
    use_server_manager (w : world) :
  (forall e w0,
     load_dotenv lib w = (Raised e, w0) ->
     CarAudioEventsAgent.__init__ lib llm_provider model config_file
       max_steps use_server_manager w
     = (Raised e, w0))
  /\ (forall loaded w0,
        load_dotenv lib w = (Returned loaded, w0) ->
        llm_provider = "openai" \/ llm_provider = "anthropic" ->
        (forall e w1,
           build_llm lib llm_provider model w0 = (Raised e, w1) ->
           CarAudioEventsAgent.__init__ lib llm_provider model config_file
             max_steps use_server_manager w
           = (Raised e, w1))
        /\ (forall l w1 e w2,
              build_llm lib llm_provider model w0 = (Returned l, w1) ->
              build_client lib config_file w1 = (Raised e, w2) ->
              CarAudioEventsAgent.__init__ lib llm_provider model config_file
                max_steps use_server_manager w
              = (Raised e, w2))
        /\ (forall l w1 c w2 e w3,
              build_llm lib llm_provider model w0 = (Returned l, w1) ->
              build_client lib config_file w1 = (Returned c, w2) ->
              new_MCPAgent lib l c max_steps use_server_manager true w2
              = (Raised e, w3) ->
              CarAudioEventsAgent.__init__ lib llm_provider model config_file
                max_steps use_server_manager w
              = (Raised e, w3))).
Proof.
  unfold CarAudioEventsAgent.__init__, build_llm, build_client, bind. split.
  - intros e w0 ->. reflexivity.
  - intros loaded w0 -> [-> | ->];
      cbn [String.eqb Ascii.eqb Bool.eqb]; (split; [|split]).
    + intros e w1 ->. reflexivity.
    + intros l w1 e w2 ->. cbn [ret fst snd]. intros ->. reflexivity.
    + intros l w1 c w2 e w3 ->. cbn [ret fst snd]. intros -> ->. reflexivity.
    + intros e w1 ->. reflexivity.
    + intros l w1 e w2 ->. cbn [ret fst snd]. intros ->. reflexivity.
    + intros l w1 c w2 e w3 ->. cbn [ret fst snd]. intros -> ->. reflexivity.
Qed.

(** X23 at libraries whose OpenAI client cannot be built, and at libraries
    whose agent runtime cannot be built, asked for an anthropic agent. *)
Lemma failed_construction_stops_witness :
  CarAudioEventsAgent.__init__ keyless "openai" None None 30 true world_a
  = (Raised (Exception_ "missing API key"), world_a)
  /\ CarAudioEventsAgent.__init__ runtimeless "anthropic" None None 30 true
       world_a
     = (Raised (Exception_ "no server reachable"), world_a).
Proof.
  split.
  - apply (proj1 (proj2 (failed_construction_stops keyless "openai" None None
                           30 true world_a) true world_a eq_refl
                    (or_introl eq_refl))).
    reflexivity.
  - apply (proj2 (proj2 (proj2 (failed_construction_stops runtimeless
                                  "anthropic" None None 30 true world_a)
                           true world_a eq_refl (or_intror eq_refl)))
             "anthropic/claude-3-5-sonnet-20240620" world_a
             (VDict CarAudioEventsAgent._get_default_config) world_a);
      reflexivity.
Defined.

(** ** Running and streaming *)

(** X24: [run] hands the query and the step limit to the runtime as given
    and returns its result unchanged, logging a line before and a line
    after; when the runtime raises, [run] raises the same exception after
    logging it, and no completion is logged. *)
Theorem run_hands_on {lib} (self : CarAudioEventsAgent.t lib) query max_steps
    (w : world) :
  (forall result w1,
     agent_run lib (CarAudioEventsAgent.agent self) query max_steps
       (logged INFO [VStr "Running query: "; VStr query] w)
     = (Returned result, w1) ->
     CarAudioEventsAgent.run self query max_steps w
     = (Returned result, logged INFO [VStr "Query completed successfully"] w1))
  /\ (forall e w1,
        agent_run lib (CarAudioEventsAgent.agent self) query max_steps
          (logged INFO [VStr "Running query: "; VStr query] w)
        = (Raised e, w1) ->
        CarAudioEventsAgent.run self query max_steps w
        = (Raised e,
           logged ERROR [VStr "Error running query: "; VStr (str e)] w1)).
Proof.
  unfold CarAudioEventsAgent.run, try_except, bind, logger_info, logger_error,
    emit.
  fold (logged INFO [VStr "Running query: "; VStr query] w).
  split; intros ? ? ->; reflexivity.
Qed.

(** X24 at a query the runtime answers and one it fails. *)
Lemma run_hands_on_witness :
  fst (CarAudioEventsAgent.run recorded_agent "list events" None world_a)
  = Returned "done: list events"
  /\ fst (CarAudioEventsAgent.run recorded_agent "fail" (Some 5) world_a)
     = Raised (Exception_ "no tools").
Proof.
  split.
  - rewrite (proj1 (run_hands_on recorded_agent "list events" None world_a)
               "done: list events" _ eq_refl).
    reflexivity.
  - rewrite (proj2 (run_hands_on recorded_agent "fail" (Some 5) world_a)
               (Exception_ "no tools") _ eq_refl).
    reflexivity.
Defined.







(** A stream of three chunks that ends in an exception: the first and third
    chunk yield, the second has neither key, and the exception comes
    through after the yields. *)
Example stream_recorded :
  fst (CarAudioEventsAgent.stream recorded_agent "summarize" world_a)
  = ([CarAudioEventsAgent.YValue (VStr "thinking");
      CarAudioEventsAgent.YValue (VStr "answering");
      CarAudioEventsAgent.YFormatted
        [VStr (CarAudioEventsAgent.newline ++ CarAudioEventsAgent.newline
               ++ "Final Result: "); VStr "42"]],
     Some (Exception_ "connection lost")).
Proof. reflexivity. Qed.

(** ** The default configuration *)

(** X26: the default configuration sends the bearer token that
    [verify_token] expects by default: a server accepts it exactly when it
    sets no MCP_API_TOKEN of its own, or sets this very token. *)
Theorem default_config_token_is_server_default :
  exists (servers api headers : record) (token : string),
    CarAudioEventsAgent._get_default_config !! "mcpServers" = Some (VDict servers)
    /\ servers !! "car-audio-api" = Some (VDict api)
    /\ api !! "headers" = Some (VDict headers)
    /\ headers !! "Authorization" = Some (VStr ("Bearer " ++ token))
    /\ forall w : world,
         fst (Main.verify_token {| scheme := "Bearer"; credentials := token |} w)
         = Returned true
         <-> environ w !! "MCP_API_TOKEN" = None
             \/ environ w !! "MCP_API_TOKEN" = Some token.
Proof.
  do 3 eexists. exists "car-audio-events-mcp-token".
  split; [reflexivity|]. split; [reflexivity|]. split; [reflexivity|].
  split; [reflexivity|]. intros w.
  set (creds := {| scheme := "Bearer"; credentials := "car-audio-events-mcp-token" |}).
  destruct (String.eqb_spec (credentials creds) (expected_token w)) as [Heq|Hne].
  - rewrite (verify_token_accepts _ _ Heq). cbn [fst].
    split; [intros _ | reflexivity].
    unfold expected_token in Heq.
    destruct (environ w !! "MCP_API_TOKEN") as [t|]; [right | left; reflexivity].
    cbn [default credentials creds] in Heq. rewrite Heq. reflexivity.
  - rewrite (verify_token_rejects _ _ Hne). cbn [fst].
    split; [discriminate|]. intros H. exfalso. apply Hne.
    unfold expected_token. destruct H as [-> | ->]; reflexivity.
Qed.
